(** * MFlix data-access objects: a shallow embedding

    The repository's two data-access objects, [MoviesDAO]
    (src/dao/moviesDAO.js) and [CommentsDAO] (dao/commentsDAO.js), are thin
    wrappers around the MongoDB driver.  Every DAO function below is a
    transcription of the JavaScript function of the same name into a small
    state-and-exception monad.  The driver and the [bson] package are not
    part of the repository; they are represented by an in-memory reference
    model (module [Driver], module [Bson]) in which every driver call can be
    made to fail, and which records each call in a trace.

    JavaScript numbers are restricted to integers ([Z]); promises are run
    sequentially (the DAOs await every call they make). *)

From Stdlib Require Import ZArith String Ascii List Sorted Permutation Lia.
From stdpp Require Import base decidable option list sorting strings gmap.

Local Open Scope string_scope.
Local Open Scope Z_scope.

(** ** JavaScript values and errors *)

(** The values a caller can put into a [filters] object. *)
#[local] Unset Elimination Schemes.
Inductive JsVal : Type :=
  | VUndefined
  | VNull
  | VBool (b : bool)
  | VNum (n : Z)
  | VStr (s : string)
  | VArr (l : list JsVal)
  | VObj (o : list (string * JsVal)).
#[local] Set Elimination Schemes.

(** ToBoolean: [undefined], [null], [false], [0] and the empty string are
    falsy; arrays and objects are truthy, also when empty. *)
Definition truthy (v : JsVal) : bool :=
  match v with
  | VUndefined | VNull => false
  | VBool b => b
  | VNum n => negb (n =? 0)
  | VStr s => negb (String.eqb s "")
  | VArr _ | VObj _ => true
  end.

(** An [Error] object: its [name] ("Error", "TypeError", "MongoError", ...)
    and its [message]. *)
Record JsError : Type := mkError { err_name : string; err_message : string }.

#[global] Instance JsError_eq_dec : EqDecision JsError.
Proof. solve_decision. Defined.

(** Error.prototype.toString *)
Definition toString (e : JsError) : string :=
  if String.eqb (err_name e) "" then err_message e
  else if String.eqb (err_message e) "" then err_name e
  else err_name e ++ ": " ++ err_message e.

(** String.prototype.startsWith *)
Fixpoint startsWith (s p : string) : bool :=
  match p with
  | EmptyString => true
  | String c p' =>
      match s with
      | EmptyString => false
      | String d s' => Ascii.eqb c d && startsWith s' p'
      end
  end.

(** [s.split(", ")]: [cur] holds the characters of the current piece, last
    one first. *)
Fixpoint split_comma_space_aux (cur : list ascii) (s : string) : list string :=
  match s with
  | EmptyString => [string_of_list_ascii (rev cur)]
  | String "," (String " " rest) =>
      string_of_list_ascii (rev cur) :: split_comma_space_aux [] rest
  | String c rest => split_comma_space_aux (c :: cur) rest
  end.

Definition split_comma_space (s : string) : list string :=
  split_comma_space_aux [] s.

(** ** Results of a computation that may throw *)

Inductive Res (A : Type) : Type :=
  | Ok (a : A)
  | Throw (e : JsError).
Arguments Ok {A} a.
Arguments Throw {A} e.

(** The uniform [{ error: e }] wrapper the comment DAO returns. *)
Inductive DAOResponse (A : Type) : Type :=
  | Response (r : A)
  | ErrorWrapper (e : JsError).
Arguments Response {A} r.
Arguments ErrorWrapper {A} e.

(** ** The bson package (external): [ObjectId] on a string argument *)

Module Bson.

(** An ObjectId is twelve bytes, kept as a string of twelve characters. *)
Record ObjectIdT : Type := mkObjectId { oid_bytes : string }.

#[global] Instance ObjectIdT_eq_dec : EqDecision ObjectIdT.
Proof. solve_decision. Defined.

Definition hex_digit (c : ascii) : option N :=
  let n := N_of_ascii c in
  if ((48 <=? n) && (n <=? 57))%N then Some (n - 48)%N
  else if ((97 <=? n) && (n <=? 102))%N then Some (n - 87)%N
  else if ((65 <=? n) && (n <=? 70))%N then Some (n - 55)%N
  else None.

(** Decodes pairs of hexadecimal digits; [None] on a character that is
    not one, or on an odd number of them. *)
Fixpoint decode_hex (s : string) : option string :=
  match s with
  | EmptyString => Some EmptyString
  | String h (String l rest) =>
      match hex_digit h, hex_digit l, decode_hex rest with
      | Some a, Some b, Some r => Some (String (ascii_of_N (16 * a + b)) r)
      | _, _, _ => None
      end
  | String _ EmptyString => None
  end.

(** The message of the error [ObjectId] throws on a malformed argument,
    as the catch clause of [getMovieByID] quotes it. *)
Definition invalid_id_message : string :=
  "Argument passed in must be a single String of 12 bytes or a string of 24 hex characters".

Definition InvalidId : JsError := mkError "Error" invalid_id_message.

(** [ObjectId(id)] for a string [id]: a string of 24 hexadecimal
    characters is decoded, a string of 12 characters is taken as the
    bytes, anything else throws. *)
Definition ObjectId (id : string) : Res ObjectIdT :=
  if Nat.eqb (String.length id) 24 then
    match decode_hex id with
    | Some bytes => Ok (mkObjectId bytes)
    | None => Throw InvalidId
    end
  else if Nat.eqb (String.length id) 12 then Ok (mkObjectId id)
  else Throw InvalidId.

Definition isValid (id : string) : bool :=
  match ObjectId id with Ok _ => true | Throw _ => false end.

End Bson.

(** ** Documents, queries and pipelines *)

(** A document of the [movies] collection (the fields the DAOs name). *)
Record Movie : Type := mkMovie {
  m_id : Bson.ObjectIdT;          (* _id *)
  title : string;
  cast : list string;
  genres : list string;
  countries : list string;
  runtime : option Z;
  metacritic : option Z;
  numReviews : option Z;          (* tomatoes.viewer.numReviews *)
}.

(** A document of the [comments] collection, as [addComment] builds it. *)
Record Comment : Type := mkComment {
  c_id : Bson.ObjectIdT;          (* _id *)
  name : string;
  email : string;
  movie_id : Bson.ObjectIdT;
  text : string;
  date : Z;
}.

#[global] Instance Comment_eq_dec : EqDecision Comment.
Proof. solve_decision. Defined.

(** The query documents [getMovies] passes to [find] and [countDocuments]. *)
Inductive Query : Type :=
  | QEmpty                                  (* {} *)
  | QText (search : JsVal)                  (* { $text: { $search: search } } *)
  | QIn (field : string) (l : list JsVal).  (* { field: { $in: l } } *)

Inductive ProjVal : Type :=
  | PInclude                                (* 1 *)
  | PMetaTextScore.                         (* { $meta: "textScore" } *)

Inductive SortVal : Type :=
  | SDir (d : Z)                            (* 1 or -1 *)
  | SMetaTextScore.                         (* { $meta: "textScore" } *)

Definition Projection : Type := list (string * ProjVal).
Definition SortSpec : Type := list (string * SortVal).

(** A parsed query, sort and project bundle; a missing property is [None]. *)
Record QueryParams : Type := mkQueryParams {
  query : option Query;
  project : option Projection;
  sort : option SortSpec;
}.

(** The stages of the aggregation pipelines [MoviesDAO] builds. *)
Inductive MatchSpec : Type :=
  | MatchFilters (filters : gmap string JsVal)   (* { $match: filters } *)
  | MatchId (id : Bson.ObjectIdT).               (* { $match: { _id: id } } *)

Inductive FacetSpec : Type :=
  | Bucket (groupBy : string) (boundaries : list Z) (default : string)
  | AddFields (field from : string).

Inductive MovieStage : Type :=
  | SMatch (m : MatchSpec)
  | SSort (by_field : string) (d : Z)
  | SCount (as_field : string)
  | SSkip (n : Z)
  | SLimit (n : Z)
  | SFacet (facets : list (string * list FacetSpec))
  | SLookupComments (as_field : string) (sort_field : string) (d : Z).

(** The filter and the update of [updateOne] / [deleteOne] on comments. *)
Record CommentFilter : Type := mkCommentFilter {
  f_id : Bson.ObjectIdT;          (* _id: ObjectId(commentId) *)
  f_email : string;               (* email: userEmail *)
}.

Record CommentUpdate : Type := mkCommentUpdate {    (* { $set: { text, date } } *)
  set_text : string;
  set_date : Z;
}.

(** The stages of the pipeline [mostActiveCommenters] builds. *)
Inductive CommentStage : Type :=
  | CGroupCount (by_field : string)   (* { $group: { _id: "$field", count: { $sum: 1 } } } *)
  | CSortCount (d : Z)                (* { $sort: { count: d } } *)
  | CLimit (n : nat).                 (* { $limit: n } *)

(** ** Handles *)

(** A connected client and the options it was connected with (src/index.js). *)
Record MongoClient : Type := mkClient {
  client_id : nat;
  client_options : list (string * JsVal);
}.
Record Db : Type := mkDb { db_client : MongoClient; db_name : option string }.
Record Collection : Type := mkCollection { coll_db : Db; coll_name : string }.

(** The read concern of a collection handle (not set by the DAOs). *)
Definition readConcern (c : Collection) : JsVal := VUndefined.

(** ** The world: server, module state of the two DAOs, and the trace *)

Inductive DriverCall : Type :=
  | CallDb (c : MongoClient) (ns : option string)
  | CallCollection (d : Db) (name : string)
  | CallCommand (cmd : string)
  | CallFind (q : Query)
  | CallFindProjected (q : Query) (p : Projection)
  | CallProject (p : Projection)
  | CallSort (s : SortSpec)
  | CallSkip (n : Z)
  | CallLimit (n : Z)
  | CallToArray
  | CallCountDocuments (q : Query)
  | CallAggregateMovies (p : list MovieStage)
  | CallNext
  | CallInsertOne (name email : string) (movie_id : Bson.ObjectIdT) (text : string) (date : Z)
  | CallUpdateOne (f : CommentFilter) (u : CommentUpdate)
  | CallDeleteOne (f : CommentFilter)
  | CallAggregateComments (p : list CommentStage) (rc : JsVal).

Record World : Type := mkWorld {
  movies_store : list Movie;              (* the server's movies collection *)
  comments_store : list Comment;          (* the server's comments collection *)
  dao_movies : option Collection;         (* MoviesDAO.#movies *)
  dao_mflix : option Db;                  (* MoviesDAO.#mflix *)
  dao_comments : option Collection;       (* let comments, commentsDAO.js *)
  env_MFLIX_NS : option string;           (* process.env.MFLIX_NS *)
  faults : list (option JsError);         (* outcome planned for each coming driver call *)
  calls : list (DriverCall * bool);       (* driver calls issued so far, with success *)
  console : list string;                  (* console.error output *)
}.

Definition set_comments_store (cs : list Comment) (w : World) : World :=
  mkWorld (movies_store w) cs (dao_movies w) (dao_mflix w) (dao_comments w)
          (env_MFLIX_NS w) (faults w) (calls w) (console w).
Definition set_dao_movies (h : option Collection) (w : World) : World :=
  mkWorld (movies_store w) (comments_store w) h (dao_mflix w) (dao_comments w)
          (env_MFLIX_NS w) (faults w) (calls w) (console w).
Definition set_dao_mflix (h : option Db) (w : World) : World :=
  mkWorld (movies_store w) (comments_store w) (dao_movies w) h (dao_comments w)
          (env_MFLIX_NS w) (faults w) (calls w) (console w).
Definition set_dao_comments (h : option Collection) (w : World) : World :=
  mkWorld (movies_store w) (comments_store w) (dao_movies w) (dao_mflix w) h
          (env_MFLIX_NS w) (faults w) (calls w) (console w).
Definition set_faults (fs : list (option JsError)) (w : World) : World :=
  mkWorld (movies_store w) (comments_store w) (dao_movies w) (dao_mflix w)
          (dao_comments w) (env_MFLIX_NS w) fs (calls w) (console w).
Definition log_call (c : DriverCall) (ok : bool) (w : World) : World :=
  mkWorld (movies_store w) (comments_store w) (dao_movies w) (dao_mflix w)
          (dao_comments w) (env_MFLIX_NS w) (faults w) (calls w ++ [(c, ok)])
          (console w).
Definition log_console (line : string) (w : World) : World :=
  mkWorld (movies_store w) (comments_store w) (dao_movies w) (dao_mflix w)
          (dao_comments w) (env_MFLIX_NS w) (faults w) (calls w)
          (console w ++ [line]).

(** ** The monad of DAO code: state passing over [World], with exceptions *)

Definition M (A : Type) : Type := World -> Res A * World.

Definition ret {A} (a : A) : M A := fun w => (Ok a, w).
Definition throw {A} (e : JsError) : M A := fun w => (Throw e, w).
Definition bind {A B} (m : M A) (k : A -> M B) : M B := fun w =>
  match m w with
  | (Ok a, w') => k a w'
  | (Throw e, w') => (Throw e, w')
  end.
(** [try { body } catch (e) { handler e }] *)
Definition try_catch {A} (body : M A) (handler : JsError -> M A) : M A := fun w =>
  match body w with
  | (Ok a, w') => (Ok a, w')
  | (Throw e, w') => handler e w'
  end.
Definition lift {A} (r : Res A) : M A := fun w => (r, w).
Definition gets {A} (f : World -> A) : M A := fun w => (Ok (f w), w).
Definition modify (f : World -> World) : M unit := fun w => (Ok tt, f w).
Definition console_error (line : string) : M unit := modify (log_console line).

Notation "'let!' x ':=' m 'in' k" := (bind m (fun x => k))
  (at level 10, x name, m at level 100, k at level 200).
Notation "'do!' m 'in' k" := (bind m (fun _ => k))
  (at level 10, m at level 100, k at level 200).

(** Property access on [undefined] or [null], as on a handle that was never
    injected. *)
Definition TypeError_undefined (prop : string) : JsError :=
  mkError "TypeError" ("Cannot read property '" ++ prop ++ "' of undefined").
Definition TypeError_null (prop : string) : JsError :=
  mkError "TypeError" ("Cannot read property '" ++ prop ++ "' of null").

Definition deref {A} (h : World -> option A) (prop : string) : M A := fun w =>
  match h w with
  | Some x => (Ok x, w)
  | None => (Throw (TypeError_undefined prop), w)
  end.

(** ** The MongoDB driver (external): an in-memory reference model *)

(** What the server computes and the model leaves open: which movies a
    query document selects, how the selected movies are sorted and projected
    into result documents, what an aggregation pipeline over [movies]
    yields, the answer to the [connectionStatus] command, and the [_id]
    given to a document inserted into [comments]. *)
Class QueryEngine : Type := {
  matches : Query -> Movie -> bool;
  sort_project : option SortSpec -> option Projection -> list Movie -> list JsVal;
  aggregate_movies : list MovieStage -> list Movie -> list Comment -> list JsVal;
  connection_status : JsVal;
  generate_id : list Comment -> Bson.ObjectIdT;
}.

(** A [find] cursor: the options set on it so far. *)
Record FindCursor : Type := mkFindCursor {
  cur_query : Query;
  cur_project : option Projection;
  cur_sort : option SortSpec;
  cur_skip : Z;
  cur_limit : Z;
}.

Record UpdateResult : Type := mkUpdateResult { matchedCount : nat; modifiedCount : nat }.
Record DeleteResult : Type := mkDeleteResult { deletedCount : nat }.
Record InsertResult : Type := mkInsertResult { insertedId : Bson.ObjectIdT }.

(** A result document of [mostActiveCommenters]: [{ _id: email, count }]. *)
Record CommenterCount : Type := mkCommenterCount { group_id : string; count : nat }.

Module Driver.

Definition MongoError (msg : string) : JsError := mkError "MongoError" msg.

(** Takes the planned outcome of the coming driver call. *)
Definition pop_fault : M unit := fun w =>
  match faults w with
  | Some e :: rest => (Throw e, set_faults rest w)
  | None :: rest => (Ok tt, set_faults rest w)
  | [] => (Ok tt, w)
  end.

(** A driver call: fails as planned, or else has its [effect]; the trace
    gets the call and whether it succeeded. *)
Definition driver_call {A} (c : DriverCall) (effect : M A) : M A := fun w =>
  match pop_fault w with
  | (Throw e, w1) => (Throw e, log_call c false w1)
  | (Ok _, w1) =>
      match effect w1 with
      | (Ok a, w2) => (Ok a, log_call c true w2)
      | (Throw e, w2) => (Throw e, log_call c false w2)
      end
  end.

(** *** Client and database handles *)

Definition db (conn : MongoClient) (ns : option string) : M Db :=
  driver_call (CallDb conn ns) (ret (mkDb conn ns)).

Definition collection (d : Db) (nm : string) : M Collection :=
  driver_call (CallCollection d nm) (ret (mkCollection d nm)).

(** *** Comments: updateOne, deleteOne, aggregate *)

Definition filter_matches (f : CommentFilter) (c : Comment) : bool :=
  bool_decide (c_id c = f_id f) && String.eqb (email c) (f_email f).

Definition apply_update (u : CommentUpdate) (c : Comment) : Comment :=
  mkComment (c_id c) (name c) (email c) (movie_id c) (set_text u) (set_date u).

(** Updates the first document the filter selects. *)
Fixpoint update_first (f : CommentFilter) (u : CommentUpdate) (cs : list Comment)
  : UpdateResult * list Comment :=
  match cs with
  | [] => (mkUpdateResult 0 0, [])
  | c :: rest =>
      if filter_matches f c then
        let c' := apply_update u c in
        (mkUpdateResult 1 (if bool_decide (c' = c) then 0 else 1), c' :: rest)
      else
        let (r, rest') := update_first f u rest in (r, c :: rest')
  end.

(** Deletes the first document the filter selects. *)
Fixpoint delete_first (f : CommentFilter) (cs : list Comment)
  : DeleteResult * list Comment :=
  match cs with
  | [] => (mkDeleteResult 0, [])
  | c :: rest =>
      if filter_matches f c then (mkDeleteResult 1, rest)
      else let (r, rest') := delete_first f rest in (r, c :: rest')
  end.

Definition updateOne (h : Collection) (f : CommentFilter) (u : CommentUpdate)
  : M UpdateResult :=
  driver_call (CallUpdateOne f u) (fun w =>
    let (r, cs) := update_first f u (comments_store w) in
    (Ok r, set_comments_store cs w)).

Definition deleteOne (h : Collection) (f : CommentFilter) : M DeleteResult :=
  driver_call (CallDeleteOne f) (fun w =>
    let (r, cs) := delete_first f (comments_store w) in
    (Ok r, set_comments_store cs w)).

(** The string fields of a comment a [$group] stage can name. *)
Definition comment_field (path : string) (c : Comment) : option string :=
  if String.eqb path "$email" then Some (email c)
  else if String.eqb path "$name" then Some (name c)
  else if String.eqb path "$text" then Some (text c)
  else None.

(** [$group] with [count: { $sum: 1 }]: one row per distinct key. *)
Definition group_count (keys : list string) : list CommenterCount :=
  (fun k => mkCommenterCount k (length (filter (fun x => x = k) keys)))
    <$> remove_dups keys.

Definition count_desc : relation CommenterCount := fun a b => (count b <= count a)%nat.
Definition count_asc : relation CommenterCount := fun a b => (count a <= count b)%nat.

#[global] Instance count_desc_dec a b : Decision (count_desc a b).
Proof. unfold count_desc. apply _. Defined.
#[global] Instance count_asc_dec a b : Decision (count_asc a b).
Proof. unfold count_asc. apply _. Defined.

(** The stages after the grouping; [None] where the server rejects one. *)
Definition eval_row_stage (st : CommentStage) (rows : list CommenterCount)
  : option (list CommenterCount) :=
  match st with
  | CGroupCount _ => None
  | CSortCount d =>
      if d =? -1 then Some (merge_sort count_desc rows)
      else if d =? 1 then Some (merge_sort count_asc rows)
      else None
  | CLimit n => if Nat.eqb n 0 then None else Some (take n rows)
  end.

Fixpoint eval_row_stages (p : list CommentStage) (rows : list CommenterCount)
  : option (list CommenterCount) :=
  match p with
  | [] => Some rows
  | st :: p' =>
      match eval_row_stage st rows with
      | Some rows' => eval_row_stages p' rows'
      | None => None
      end
  end.

(** Pipelines over [comments] that start with a counting [$group]. *)
Definition eval_comment_pipeline (p : list CommentStage) (cs : list Comment)
  : option (list CommenterCount) :=
  match p with
  | CGroupCount path :: p' =>
      match mapM (comment_field path) cs with
      | Some keys => eval_row_stages p' (group_count keys)
      | None => None
      end
  | _ => None
  end.

Record CommentsAggCursor : Type := mkCommentsAggCursor {
  cagg_pipeline : list CommentStage;
}.

Definition aggregate_comments (h : Collection) (p : list CommentStage) (rc : JsVal)
  : M CommentsAggCursor :=
  driver_call (CallAggregateComments p rc) (ret (mkCommentsAggCursor p)).

Definition toArray_comments (cur : CommentsAggCursor) : M (list CommenterCount) :=
  driver_call CallToArray (fun w =>
    match eval_comment_pipeline (cagg_pipeline cur) (comments_store w) with
    | Some rows => (Ok rows, w)
    | None => (Throw (MongoError "unsupported pipeline"), w)
    end).

(** *** Calls the server answers: insertOne, command, find cursors,
    countDocuments, aggregate over movies *)

Record MoviesAggCursor : Type := mkMoviesAggCursor {
  magg_pipeline : list MovieStage;
}.

(** [skip(n)] drops [n] documents; the server rejects a negative [n]. *)
Definition apply_skip {A} (n : Z) (l : list A) : list A := drop (Z.to_nat n) l.

(** [limit(n)]: [0] is no limit, and a negative [n] limits like [-n]. *)
Definition apply_limit {A} (n : Z) (l : list A) : list A :=
  if n =? 0 then l else take (Z.abs_nat n) l.

Section served.
Context `{QueryEngine}.

(** [insertOne] appends the document under a generated [_id]. *)
Definition insertOne (h : Collection) (nm em : string) (mid : Bson.ObjectIdT)
    (txt : string) (dt : Z) : M InsertResult :=
  driver_call (CallInsertOne nm em mid txt dt) (fun w =>
    let id := generate_id (comments_store w) in
    (Ok (mkInsertResult id),
     set_comments_store (comments_store w ++ [mkComment id nm em mid txt dt]) w)).

(** [db.command({ connectionStatus: 1 })] *)
Definition command (d : Db) (cmd : string) : M JsVal :=
  driver_call (CallCommand cmd) (ret connection_status).

(** [find(query, { projection })] *)
Definition find_projected (h : Collection) (q : Query) (p : Projection) : M FindCursor :=
  driver_call (CallFindProjected q p) (ret (mkFindCursor q (Some p) None 0 0)).

Definition find (h : Collection) (q : Query) : M FindCursor :=
  driver_call (CallFind q) (ret (mkFindCursor q None None 0 0)).

Definition cursor_project (cur : FindCursor) (p : Projection) : M FindCursor :=
  driver_call (CallProject p)
    (ret (mkFindCursor (cur_query cur) (Some p) (cur_sort cur)
                       (cur_skip cur) (cur_limit cur))).

Definition cursor_sort (cur : FindCursor) (s : SortSpec) : M FindCursor :=
  driver_call (CallSort s)
    (ret (mkFindCursor (cur_query cur) (cur_project cur) (Some s)
                       (cur_skip cur) (cur_limit cur))).

Definition cursor_skip (cur : FindCursor) (n : Z) : M FindCursor :=
  driver_call (CallSkip n)
    (ret (mkFindCursor (cur_query cur) (cur_project cur) (cur_sort cur)
                       n (cur_limit cur))).

Definition cursor_limit (cur : FindCursor) (n : Z) : M FindCursor :=
  driver_call (CallLimit n)
    (ret (mkFindCursor (cur_query cur) (cur_project cur) (cur_sort cur)
                       (cur_skip cur) n)).

(** The documents a cursor yields over the stored movies. *)
Definition run_find (cur : FindCursor) (ms : list Movie) : Res (list JsVal) :=
  if cur_skip cur <? 0 then Throw (MongoError "Skip value must be non-negative")
  else Ok (apply_limit (cur_limit cur)
             (apply_skip (cur_skip cur)
                (sort_project (cur_sort cur) (cur_project cur)
                   (List.filter (matches (cur_query cur)) ms)))).

Definition toArray (cur : FindCursor) : M (list JsVal) :=
  driver_call CallToArray (fun w => (run_find cur (movies_store w), w)).

Definition countDocuments (h : Collection) (q : Query) : M Z :=
  driver_call (CallCountDocuments q) (fun w =>
    (Ok (Z.of_nat (length (List.filter (matches q) (movies_store w)))), w)).

Definition aggregate (h : Collection) (p : list MovieStage) : M MoviesAggCursor :=
  driver_call (CallAggregateMovies p) (ret (mkMoviesAggCursor p)).

(** The first document of the aggregation, [null] when there is none. *)
Definition next (cur : MoviesAggCursor) : M JsVal :=
  driver_call CallNext (fun w =>
    (Ok (match aggregate_movies (magg_pipeline cur)
                 (movies_store w) (comments_store w) with
         | [] => VNull
         | d :: _ => d
         end), w)).
End served.

End Driver.

(** ** src/dao/moviesDAO.js *)

(** The result set of [getMovies]. *)
Record GetMoviesResult : Type := mkGetMoviesResult {
  moviesList : list JsVal;
  totalNumMovies : Z;
}.

(** The result of [getConfiguration]. *)
Record ConfigurationResult : Type := mkConfigurationResult {
  poolSize : JsVal;
  wtimeout : JsVal;
  authInfo : JsVal;
}.

(** The arguments object of [getMovies] and [facetedSearch]; [None] is a
    property left out (and, for [filters], also [null]); [filters], when
    given, is an object. *)
Record SearchArgs : Type := mkSearchArgs {
  arg_filters : option (gmap string JsVal);
  arg_page : option Z;
  arg_moviesPerPage : option Z;
}.

(** [o[key]] *)
Definition get_prop (o : gmap string JsVal) (key : string) : JsVal :=
  default VUndefined (o !! key).

(** [key in o] *)
Definition has_prop (key : string) (o : gmap string JsVal) : bool :=
  bool_decide (is_Some (o !! key)).

(** [v.key] *)
Definition member (v : JsVal) (key : string) : Res JsVal :=
  match v with
  | VUndefined => Throw (TypeError_undefined key)
  | VNull => Throw (TypeError_null key)
  | VObj o => Ok (default VUndefined (snd <$> List.find (fun kv => String.eqb (fst kv) key) o))
  | _ => Ok VUndefined
  end.

(** [v[0]] *)
Definition first_element (v : JsVal) : Res JsVal :=
  match v with
  | VUndefined => Throw (TypeError_undefined "0")
  | VNull => Throw (TypeError_null "0")
  | VArr (x :: _) => Ok x
  | _ => Ok VUndefined
  end.

(** Writes one property of an object literal kept as an association list:
    an existing key keeps its place. *)
Fixpoint set_prop (k : string) (v : JsVal) (o : list (string * JsVal))
  : list (string * JsVal) :=
  match o with
  | [] => [(k, v)]
  | (k', v') :: o' =>
      if String.eqb k k' then (k, v) :: o' else (k', v') :: set_prop k v o'
  end.

(** The own properties [...v] spreads. *)
Definition spread_props (v : JsVal) : list (string * JsVal) :=
  match v with
  | VObj o => o
  | _ => []
  end.

(** [{ ...a, ...b }] *)
Definition spread2 (a b : JsVal) : JsVal :=
  VObj (fold_left (fun o kv => set_prop (fst kv) (snd kv) o)
                  (spread_props b)
                  (fold_left (fun o kv => set_prop (fst kv) (snd kv) o)
                             (spread_props a) [])).

Module MoviesDAO.

Definition DEFAULT_SORT : SortSpec := [("tomatoes.viewer.numReviews", SDir (-1))].

Definition textSearchQuery (text : JsVal) : QueryParams :=
  let query := QText text in
  let meta_score := PMetaTextScore in
  let sort := [("score", SMetaTextScore)] in
  let project := [("score", meta_score)] in
  mkQueryParams (Some query) (Some project) (Some sort).

(** [Array.isArray(v) ? v : v.split(", ")], for the parameter named [param] *)
Definition array_or_split (param : string) (v : JsVal) : Res (list JsVal) :=
  match v with
  | VArr l => Ok l
  | VStr s => Ok (VStr <$> split_comma_space s)
  | VUndefined => Throw (TypeError_undefined "split")
  | VNull => Throw (TypeError_null "split")
  | _ => Throw (mkError "TypeError" (param ++ ".split is not a function"))
  end.

Definition castSearchQuery (cast : JsVal) : Res QueryParams :=
  match array_or_split "cast" cast with
  | Throw e => Throw e
  | Ok searchCast =>
      let query := QIn "cast" searchCast in
      let project := [] in
      let sort := DEFAULT_SORT in
      Ok (mkQueryParams (Some query) (Some project) (Some sort))
  end.

Definition genreSearchQuery (genre : JsVal) : Res QueryParams :=
  match array_or_split "genre" genre with
  | Throw e => Throw e
  | Ok searchGenre =>
      let query := QIn "genres" searchGenre in
      let project := [] in
      let sort := DEFAULT_SORT in
      Ok (mkQueryParams (Some query) (Some project) (Some sort))
  end.

(** Lines 202-211 of [getMovies]: the choice of the query kind. *)
Definition chooseQueryParams (filters : option (gmap string JsVal)) : Res QueryParams :=
  let queryParams := mkQueryParams None None None in
  match filters with
  | Some filters =>
      if has_prop "text" filters then Ok (textSearchQuery (get_prop filters "text"))
      else if has_prop "cast" filters then castSearchQuery (get_prop filters "cast")
      else if has_prop "genre" filters then genreSearchQuery (get_prop filters "genre")
      else Ok queryParams
  | None => Ok queryParams
  end.

Definition injectDB (conn : MongoClient) : M unit :=
  let! movies := gets dao_movies in
  match movies with
  | Some _ => ret tt
  | None =>
      try_catch
        (let! ns := gets env_MFLIX_NS in
         let! mflix := Driver.db conn ns in
         do! modify (set_dao_mflix (Some mflix)) in
         let! d := Driver.db conn ns in
         let! movies := Driver.collection d "movies" in
         modify (set_dao_movies (Some movies)))
        (fun e =>
           console_error
             ("Unable to establish a collection handle in moviesDAO: " ++ toString e))
  end.

(** Line 213: [let { query = {}, project = {}, sort = DEFAULT_SORT } = queryParams] *)
Definition destructure (queryParams : QueryParams) : Query * Projection * SortSpec :=
  (default QEmpty (query queryParams),
   default [] (project queryParams),
   default DEFAULT_SORT (sort queryParams)).

Definition emptyResult : GetMoviesResult := mkGetMoviesResult [] 0.

Definition facetStage : MovieStage :=
  SFacet [("runtime", [Bucket "$runtime" [0; 60; 90; 120; 180] "other"]);
          ("rating", [Bucket "$metacritic" [0; 50; 70; 90; 100] "other"]);
          ("movies", [AddFields "title" "$title"])].

Definition tooLarge : JsVal :=
  VObj [("error", VStr "Results too large, be more restrictive in filter")].

Definition invalidIdPrefix : string :=
  "Error: Argument passed in must be a single String of 12 bytes or a string of 24 hex characters".

Section with_engine.
Context `{QueryEngine}.

Definition getConfiguration : M ConfigurationResult :=
  let! mflix := deref dao_mflix "command" in
  let! roleInfo := Driver.command mflix "connectionStatus" in
  let! info := lift (member roleInfo "authInfo") in
  let! roles := lift (member info "authenticatedUserRoles") in
  let! authInfo := lift (first_element roles) in
  let! movies := deref dao_movies "s" in
  let options := VObj (client_options (db_client (coll_db movies))) in
  let! poolSize := lift (member options "poolSize") in
  let! wtimeout := lift (member options "wtimeout") in
  let response := mkConfigurationResult poolSize wtimeout authInfo in
  ret response.

Definition getMoviesByCountry (countries : list JsVal) : M (list JsVal) :=
  let! found :=
    try_catch
      (let! movies := deref dao_movies "find" in
       let! c := Driver.find_projected movies (QIn "countries" countries)
                   [("title", PInclude)] in
       ret (inl c))
      (fun e =>
         do! console_error ("Unable to issue find command, " ++ toString e) in
         ret (inr [])) in
  match found with
  | inr early => ret early
  | inl cursor => Driver.toArray cursor
  end.

Definition getMovies (args : SearchArgs) : M GetMoviesResult :=
  let filters := arg_filters args in
  let page := default 0 (arg_page args) in
  let moviesPerPage := default 20 (arg_moviesPerPage args) in
  let! queryParams := lift (chooseQueryParams filters) in
  let '(query, project, sort) := destructure queryParams in
  let! found :=
    try_catch
      (let! movies := deref dao_movies "find" in
       let! c := Driver.find movies query in
       let! c := Driver.cursor_project c project in
       let! c := Driver.cursor_sort c sort in
       ret (inl c))
      (fun e =>
         do! console_error ("Unable to issue find command, " ++ toString e) in
         ret (inr emptyResult)) in
  match found with
  | inr early => ret early
  | inl cursor =>
      let! skipped := Driver.cursor_skip cursor (page * moviesPerPage) in
      let! displayCursor := Driver.cursor_limit skipped moviesPerPage in
      try_catch
        (let! moviesList := Driver.toArray displayCursor in
         let! totalNumMovies :=
           (if page =? 0
            then let! movies := deref dao_movies "countDocuments" in
                 Driver.countDocuments movies query
            else ret 0) in
         ret (mkGetMoviesResult moviesList totalNumMovies))
        (fun e =>
           do! console_error
                 ("Unable to convert cursor to array or problem counting documents, "
                  ++ toString e) in
           ret emptyResult)
  end.

Definition facetedSearch (args : SearchArgs) : M JsVal :=
  let filters := arg_filters args in
  let page := default 0 (arg_page args) in
  let moviesPerPage := default 20 (arg_moviesPerPage args) in
  match filters with
  | None => throw (mkError "Error" "Must specify cast members to filter by.")
  | Some filters =>
      if negb (truthy (get_prop filters "cast")) then
        throw (mkError "Error" "Must specify cast members to filter by.")
      else
        let matchStage := SMatch (MatchFilters filters) in
        let sortStage := SSort "tomatoes.viewer.numReviews" (-1) in
        let countingPipeline := [matchStage; sortStage; SCount "count"] in
        let skipStage := SSkip (moviesPerPage * page) in
        let limitStage := SLimit moviesPerPage in
        let queryPipeline :=
          [matchStage; sortStage; skipStage; limitStage; facetStage] in
        try_catch
          (let! movies := deref dao_movies "aggregate" in
           let! c1 := Driver.aggregate movies queryPipeline in
           let! results := Driver.next c1 in
           let! movies := deref dao_movies "aggregate" in
           let! c2 := Driver.aggregate movies countingPipeline in
           let! count := Driver.next c2 in
           ret (spread2 results count))
          (fun e => ret tooLarge)
  end.

(** The [try] block of [getMovieByID]. *)
Definition getMovieByID_try (id : string) : M JsVal :=
  let! oid := lift (Bson.ObjectId id) in
  let pipeline :=
    [SMatch (MatchId oid); SLookupComments "comments" "date" (-1)] in
  let! movies := deref dao_movies "aggregate" in
  let! c := Driver.aggregate movies pipeline in
  Driver.next c.

Definition getMovieByID (id : string) : M JsVal :=
  try_catch
    (getMovieByID_try id)
    (fun e =>
       if startsWith (toString e) invalidIdPrefix then ret VNull
       else
         do! console_error ("Something went wrong in getMovieByID: " ++ toString e) in
         throw e).

End with_engine.

End MoviesDAO.

(** ** dao/commentsDAO.js *)

(** The [user] argument of [addComment]. *)
Record User : Type := mkUser { user_name : string; user_email : string }.

Module CommentsDAO.

Definition injectDB (conn : MongoClient) : M unit :=
  let! comments := gets dao_comments in
  match comments with
  | Some _ => ret tt
  | None =>
      try_catch
        (let! ns := gets env_MFLIX_NS in
         let! d := Driver.db conn ns in
         let! comments := Driver.collection d "comments" in
         modify (set_dao_comments (Some comments)))
        (fun e =>
           console_error
             ("Unable to establish collection handles in userDAO: " ++ toString e))
  end.

Section with_engine.
Context `{QueryEngine}.

Definition addComment (movieId : string) (user : User) (comment : string) (date : Z)
  : M (DAOResponse InsertResult) :=
  try_catch
    (let! oid := lift (Bson.ObjectId movieId) in
     let! comments := deref dao_comments "insertOne" in
     let! r := Driver.insertOne comments (user_name user) (user_email user)
                 oid comment date in
     ret (Response r))
    (fun e =>
       do! console_error ("Unable to post comment: " ++ toString e) in
       ret (ErrorWrapper e)).

End with_engine.

Definition updateComment (commentId userEmail text : string) (date : Z)
  : M (DAOResponse UpdateResult) :=
  try_catch
    (let! comments := deref dao_comments "updateOne" in
     let! oid := lift (Bson.ObjectId commentId) in
     let! updateResponse :=
       Driver.updateOne comments
         (mkCommentFilter oid userEmail) (mkCommentUpdate text date) in
     ret (Response updateResponse))
    (fun e =>
       do! console_error ("Unable to update comment: " ++ toString e) in
       ret (ErrorWrapper e)).

Definition deleteComment (commentId userEmail : string)
  : M (DAOResponse DeleteResult) :=
  try_catch
    (let! comments := deref dao_comments "deleteOne" in
     let! oid := lift (Bson.ObjectId commentId) in
     let! deleteResponse :=
       Driver.deleteOne comments (mkCommentFilter oid userEmail) in
     ret (Response deleteResponse))
    (fun e =>
       do! console_error ("Unable to delete comment: " ++ toString e) in
       ret (ErrorWrapper e)).

Definition pipeline : list CommentStage :=
  [CGroupCount "$email"; CSortCount (-1); CLimit 20].

Definition mostActiveCommenters : M (DAOResponse (list CommenterCount)) :=
  try_catch
    (let! comments := deref dao_comments "readConcern" in
     let readConcern := readConcern comments in
     let! aggregateResult :=
       Driver.aggregate_comments comments pipeline readConcern in
     let! rows := Driver.toArray_comments aggregateResult in
     ret (Response rows))
    (fun e =>
       do! console_error ("Unable to retrieve most active commenters: " ++ toString e) in
       ret (ErrorWrapper e)).

End CommentsDAO.

(** ** Vocabulary of the statements *)

(** [keeps f m]: running [m] never changes the component [f] of the world. *)
Definition keeps {A B} (f : World -> B) (m : M A) : Prop :=
  forall w, f (snd (m w)) = f w.

(** The three handles of the two DAO modules. *)
Definition handles (w : World) : option Collection * option Db * option Collection :=
  (dao_movies w, dao_mflix w, dao_comments w).

(** The failure planned for the coming driver call, if any. *)
Definition next_fault (w : World) : option JsError :=
  match faults w with
  | Some e :: _ => Some e
  | _ => None
  end.

(** The driver calls a run from [w] to [w'] has added to the trace. *)
Definition new_calls (w w' : World) : list (DriverCall * bool) :=
  drop (length (calls w)) (calls w').

(** Some driver call of the run failed. *)
Definition some_call_failed (w w' : World) : Prop :=
  exists c, (c, false) ∈ new_calls w w'.

Definition mustSpecifyCast : JsError :=
  mkError "Error" "Must specify cast members to filter by.".

(** The pipelines [facetedSearch] sends. *)
Definition queryPipeline (filters : gmap string JsVal) (page moviesPerPage : Z)
  : list MovieStage :=
  [SMatch (MatchFilters filters); SSort "tomatoes.viewer.numReviews" (-1);
   SSkip (moviesPerPage * page); SLimit moviesPerPage; MoviesDAO.facetStage].

Definition countingPipeline (filters : gmap string JsVal) : list MovieStage :=
  [SMatch (MatchFilters filters); SSort "tomatoes.viewer.numReviews" (-1);
   SCount "count"].

Definition wentWrong (e : JsError) : string :=
  "Something went wrong in getMovieByID: " ++ toString e.

(** The driver calls [getMovies] makes inside one of its [try] blocks. *)
Definition in_try_block (c : DriverCall) : bool :=
  match c with
  | CallFind _ | CallProject _ | CallSort _ | CallToArray | CallCountDocuments _ => true
  | _ => false
  end.

(** The rows [mostActiveCommenters] gets from the server. *)
Definition top_commenters (cs : list Comment) : list CommenterCount :=
  take 20 (merge_sort Driver.count_desc (Driver.group_count (email <$> cs))).

(** One call of a DAO function, as the HTTP layer or the start-up code
    (src/index.js) makes it. *)
Inductive DaoCall : Type :=
  | MoviesInjectDB (conn : MongoClient)
  | GetConfiguration
  | GetMoviesByCountry (countries : list JsVal)
  | GetMovies (args : SearchArgs)
  | FacetedSearch (args : SearchArgs)
  | GetMovieByID (id : string)
  | CommentsInjectDB (conn : MongoClient)
  | AddComment (movieId : string) (user : User) (comment : string) (date : Z)
  | UpdateComment (commentId userEmail text : string) (date : Z)
  | DeleteComment (commentId userEmail : string)
  | MostActiveCommenters.

(** The world after a driver call that succeeded: the fault plan has moved
    on and the trace has the call. *)
Definition after_call (c : DriverCall) (w : World) : World :=
  log_call c true (set_faults (tail (faults w)) w).

(** The lines the DAOs log. *)
Definition unableTo (what : string) (e : JsError) : string :=
  "Unable to " ++ what ++ ": " ++ toString e.

Definition findFailed (e : JsError) : string :=
  "Unable to issue find command, " ++ toString e.

(** A DAO call that only reads the stores. *)
Definition reads_only (c : DaoCall) : bool :=
  match c with
  | AddComment _ _ _ _ | UpdateComment _ _ _ _ | DeleteComment _ _ => false
  | _ => true
  end.

(** The handles, where set, are those of the collections [movies] and
    [comments], and [#mflix] is the database of [#movies]. *)
Definition handles_consistent (w : World) : Prop :=
  (forall h, dao_movies w = Some h ->
     coll_name h = "movies" /\ dao_mflix w = Some (coll_db h)) /\
  (forall h, dao_comments w = Some h -> coll_name h = "comments").

(** A filter value [castSearchQuery] and [genreSearchQuery] can take: an
    array, or a string to split. *)
Definition splittable (v : JsVal) : bool :=
  match v with
  | VArr _ | VStr _ => true
  | _ => false
  end.

(** [pieces.join(", ")] *)
Fixpoint join_comma_space (pieces : list string) : string :=
  match pieces with
  | [] => ""
  | [x] => x
  | x :: rest => x ++ ", " ++ join_comma_space rest
  end.

(** The number of stored comments of an email. *)
Definition comments_of (em : string) (cs : list Comment) : nat :=
  length (filter (fun c => email c = em) cs).

Section vocabulary.
Context `{QueryEngine}.

(** The documents of one page: the matching movies, sorted and projected
    by the server, then [skip] and [limit]. *)
Definition page_of (q : Query) (p : Projection) (s : SortSpec)
    (page moviesPerPage : Z) (ms : list Movie) : list JsVal :=
  Driver.apply_limit moviesPerPage
    (Driver.apply_skip (page * moviesPerPage)
       (sort_project (Some s) (Some p) (List.filter (matches q) ms))).

(** The world after one call (its result is dropped). *)
Definition run_call (c : DaoCall) (w : World) : World :=
  match c with
  | MoviesInjectDB conn => snd (MoviesDAO.injectDB conn w)
  | GetConfiguration => snd (MoviesDAO.getConfiguration w)
  | GetMoviesByCountry countries => snd (MoviesDAO.getMoviesByCountry countries w)
  | GetMovies args => snd (MoviesDAO.getMovies args w)
  | FacetedSearch args => snd (MoviesDAO.facetedSearch args w)
  | GetMovieByID id => snd (MoviesDAO.getMovieByID id w)
  | CommentsInjectDB conn => snd (CommentsDAO.injectDB conn w)
  | AddComment m u c d => snd (CommentsDAO.addComment m u c d w)
  | UpdateComment c e t d => snd (CommentsDAO.updateComment c e t d w)
  | DeleteComment c e => snd (CommentsDAO.deleteComment c e w)
  | MostActiveCommenters => snd (CommentsDAO.mostActiveCommenters w)
  end.

Definition run_calls (cs : list DaoCall) (w : World) : World :=
  fold_left (fun w c => run_call c w) cs w.
End vocabulary.

(** ** A small database to run the DAOs on *)

Module Example.

Definition oid (n : nat) : Bson.ObjectIdT :=
  Bson.mkObjectId (string_of_list_ascii (replicate 11 "0"%char ++ [ascii_of_nat (48 + n)])).

(** The twelve-character identifier of [oid n]. *)
Definition id_of (n : nat) : string :=
  string_of_list_ascii (replicate 11 "0"%char ++ [ascii_of_nat (48 + n)]).

Definition ada : Comment := mkComment (oid 1) "Ada" "ada@x.com" (oid 7) "great film" 100.
Definition bob : Comment := mkComment (oid 2) "Bob" "bob@x.com" (oid 7) "meh" 101.
Definition ada2 : Comment := mkComment (oid 3) "Ada" "ada@x.com" (oid 8) "again" 102.
Definition cy : Comment := mkComment (oid 4) "Cy" "cy@x.com" (oid 8) "fine" 103.

Definition heat : Movie :=
  mkMovie (oid 7) "Heat" ["Al Pacino"; "Robert De Niro"] ["Crime"] ["USA"]
          (Some 170) (Some 76) (Some 900).
Definition alien : Movie :=
  mkMovie (oid 8) "Alien" ["Sigourney Weaver"] ["Horror"; "Sci-Fi"] ["UK"; "USA"]
          (Some 117) (Some 89) (Some 1200).
Definition ronin : Movie :=
  mkMovie (oid 9) "Ronin" ["Robert De Niro"; "Jean Reno"] ["Action"] ["USA"]
          (Some 122) (Some 67) (Some 300).

Definition client : MongoClient :=
  mkClient 1 [("poolSize", VNum 50); ("wtimeout", VNum 2500); ("w", VStr "majority");
              ("useNewUrlParser", VBool true); ("useUnifiedTopology", VBool true)].
Definition other_client : MongoClient := mkClient 2 [].
Definition mflix : Db := mkDb client (Some "sample_mflix").
Definition h_movies : Collection := mkCollection mflix "movies".
Definition h_comments : Collection := mkCollection mflix "comments".

(** Both DAOs injected, no failure planned, nothing called yet. *)
Definition world : World :=
  mkWorld [heat; alien; ronin] [ada; bob; ada2; cy]
          (Some h_movies) (Some mflix) (Some h_comments)
          (Some "sample_mflix") [] [] [].

(** Before [injectDB]. *)
Definition fresh : World :=
  mkWorld [heat; alien; ronin] [ada; bob; ada2; cy]
          None None None (Some "sample_mflix") [] [] [].

Definition in_match (s : string) (v : JsVal) : bool :=
  match v with VStr s' => String.eqb s s' | _ => false end.

Definition movie_field (f : string) (m : Movie) : list string :=
  if String.eqb f "cast" then cast m
  else if String.eqb f "genres" then genres m
  else if String.eqb f "countries" then countries m
  else [].

(** A plain engine: [$in] on string arrays, [$text] as equality with the
    title, result documents that carry the title only, stored order; one
    role in the connection status; identifiers counted up. *)
#[export] Instance engine : QueryEngine := {|
  matches q m :=
    match q with
    | QEmpty => true
    | QText v => in_match (title m) v
    | QIn f l => existsb (fun s => existsb (in_match s) l) (movie_field f m)
    end;
  sort_project _ _ ms := (fun m => VObj [("title", VStr (title m))]) <$> ms;
  aggregate_movies p ms cs :=
    match p with
    | SMatch (MatchId i) :: _ =>
        (fun m => VObj [("title", VStr (title m))])
          <$> List.filter (fun m => bool_decide (m_id m = i)) ms
    | _ => [VObj [("movies", VArr [])]]
    end;
  connection_status :=
    VObj [("authInfo",
           VObj [("authenticatedUserRoles",
                  VArr [VObj [("role", VStr "readWrite"); ("db", VStr "sample_mflix")]])])];
  generate_id cs := oid (5 + length cs);
|}.

(** A failure of the driver, and the example world with a plan: the
    first [n] driver calls succeed, the next one fails. *)
Definition down : JsError := Driver.MongoError "connection closed".

Definition failing_after (n : nat) : World :=
  set_faults (replicate n None ++ [Some down]) world.

Definition castFilter : gmap string JsVal := {[ "cast" := VStr "Robert De Niro, Jean Reno" ]}.
Definition genreFilter : gmap string JsVal := {[ "genre" := VStr "Crime" ]}.
Definition allFilters : gmap string JsVal :=
  {[ "genre" := VStr "Crime"; "cast" := VStr "Al Pacino"; "text" := VStr "Heat" ]}.
Definition castAndGenre : gmap string JsVal :=
  {[ "genre" := VStr "Crime"; "cast" := VStr "Al Pacino" ]}.
Definition otherKeys : gmap string JsVal := {[ "year" := VNum 1995 ]}.

(** Section 8 of the specification: Ada's comment, an update by Ada, and an
    update under another email. *)
Definition posted : World :=
  snd (CommentsDAO.addComment (id_of 7) (mkUser "Ada" "ada@x.com") "great film" 104 world).

(** Twenty-one commenters, the first with two comments. *)
Definition commenter (n : nat) : Comment :=
  mkComment (oid n) "Viewer" (String (ascii_of_nat (97 + n)) "@x.com") (oid 7) "seen" 100.

Definition crowd : World :=
  mkWorld [heat; alien; ronin] ((commenter <$> seq 0 21) ++ [commenter 0])
          (Some h_movies) (Some mflix) (Some h_comments)
          (Some "sample_mflix") [] [] [].

End Example.

(** ** Frame rules: what a run leaves untouched *)

Section frames.
Context {B : Type} (f : World -> B).

Lemma keeps_ret {A} (a : A) : keeps f (ret a).
Proof. intros w. reflexivity. Qed.

Lemma keeps_throw {A} (e : JsError) : keeps f (@throw A e).
Proof. intros w. reflexivity. Qed.

Lemma keeps_lift {A} (r : Res A) : keeps f (lift r).
Proof. intros w. reflexivity. Qed.

Lemma keeps_gets {A} (g : World -> A) : keeps f (gets g).
Proof. intros w. reflexivity. Qed.

Lemma keeps_deref {A} (h : World -> option A) (prop : string) : keeps f (deref h prop).
Proof. intros w. unfold deref. destruct (h w); reflexivity. Qed.

Lemma keeps_modify (g : World -> World) :
  (forall w, f (g w) = f w) -> keeps f (modify g).
Proof. intros Hg w. apply Hg. Qed.

Lemma keeps_bind {A C} (m : M A) (k : A -> M C) :
  keeps f m -> (forall a, keeps f (k a)) -> keeps f (bind m k).
Proof.
  intros Hm Hk w. unfold bind. specialize (Hm w).
  destruct (m w) as [[a|e] w1]; simpl in *.
  - rewrite Hk. exact Hm.
  - exact Hm.
Qed.

Lemma keeps_try_catch {A} (body : M A) (handler : JsError -> M A) :
  keeps f body -> (forall e, keeps f (handler e)) -> keeps f (try_catch body handler).
Proof.
  intros Hb Hh w. unfold try_catch. specialize (Hb w).
  destruct (body w) as [[a|e] w1]; simpl in *.
  - exact Hb.
  - rewrite Hh. exact Hb.
Qed.

(** Components other than the fault plan, the trace and the console. *)
Hypothesis f_faults : forall fs w, f (set_faults fs w) = f w.
Hypothesis f_calls : forall c ok w, f (log_call c ok w) = f w.
Hypothesis f_console : forall line w, f (log_console line w) = f w.

Lemma keeps_console_error (line : string) : keeps f (console_error line).
Proof. apply keeps_modify. apply f_console. Qed.

Lemma keeps_driver_call {A} (c : DriverCall) (effect : M A) :
  keeps f effect -> keeps f (Driver.driver_call c effect).
Proof.
  intros He w. unfold Driver.driver_call, Driver.pop_fault.
  destruct (faults w) as [|[e|] rest]; simpl.
  - specialize (He w). destruct (effect w) as [[a|e] w2]; simpl in *;
      rewrite f_calls; exact He.
  - rewrite f_calls. apply f_faults.
  - specialize (He (set_faults rest w)).
    destruct (effect (set_faults rest w)) as [[a|e] w2]; simpl in *;
      rewrite f_calls, He; apply f_faults.
Qed.
End frames.

(** Applies the frame rules along the structure of a DAO function. *)
Ltac keeps_step :=
  match goal with
  | |- keeps _ (bind _ _) => apply keeps_bind; [ | intros ? ]
  | |- keeps _ (try_catch _ _) => apply keeps_try_catch; [ | intros ? ]
  | |- keeps _ (Driver.driver_call _ _) =>
      apply keeps_driver_call; [ reflexivity | reflexivity | ]
  | |- keeps _ (console_error _) =>
      apply keeps_console_error; reflexivity
  | |- keeps _ (ret _) => apply keeps_ret
  | |- keeps _ (throw _) => apply keeps_throw
  | |- keeps _ (lift _) => apply keeps_lift
  | |- keeps _ (gets _) => apply keeps_gets
  | |- keeps _ (deref _ _) => apply keeps_deref
  | |- keeps _ (modify _) => apply keeps_modify; reflexivity
  | |- keeps _ (fun w => (_, w)) => intros ?; reflexivity
  | |- keeps _ (match ?x with _ => _ end) => destruct x
  | |- keeps _ (if ?x then _ else _) => destruct x
  end.

Ltac keeps_tac := repeat keeps_step.

Section dao_frames.
Context `{QueryEngine}.

Lemma updateOne_keeps_handles h flt u : keeps handles (Driver.updateOne h flt u).
Proof.
  unfold Driver.updateOne. keeps_step.
  intros w. destruct (Driver.update_first flt u (comments_store w)); reflexivity.
Qed.

Lemma deleteOne_keeps_handles h flt : keeps handles (Driver.deleteOne h flt).
Proof.
  unfold Driver.deleteOne. keeps_step.
  intros w. destruct (Driver.delete_first flt (comments_store w)); reflexivity.
Qed.

Lemma toArray_comments_keeps {B} (f : World -> B) cur :
  (forall fs w, f (set_faults fs w) = f w) ->
  (forall c ok w, f (log_call c ok w) = f w) ->
  keeps f (Driver.toArray_comments cur).
Proof.
  intros Hf Hc. unfold Driver.toArray_comments.
  apply keeps_driver_call; [ exact Hf | exact Hc | ].
  intros w. destruct (Driver.eval_comment_pipeline _ _); reflexivity.
Qed.

Lemma getConfiguration_keeps_handles : keeps handles MoviesDAO.getConfiguration.
Proof. unfold MoviesDAO.getConfiguration, Driver.command. keeps_tac. Qed.

Lemma getMoviesByCountry_keeps_handles countries :
  keeps handles (MoviesDAO.getMoviesByCountry countries).
Proof.
  unfold MoviesDAO.getMoviesByCountry, Driver.find_projected, Driver.toArray. keeps_tac.
Qed.

Lemma addComment_keeps_handles m u c d : keeps handles (CommentsDAO.addComment m u c d).
Proof.
  unfold CommentsDAO.addComment, Driver.insertOne. keeps_tac.
  intros w. reflexivity.
Qed.

Lemma getMovies_keeps_handles args : keeps handles (MoviesDAO.getMovies args).
Proof.
  unfold MoviesDAO.getMovies, Driver.find, Driver.cursor_project, Driver.cursor_sort,
    Driver.cursor_skip, Driver.cursor_limit, Driver.toArray, Driver.countDocuments.
  keeps_step; [keeps_tac|].
  match goal with
  | |- context [MoviesDAO.destructure ?qp] =>
      destruct (MoviesDAO.destructure qp) as [[q p] s]
  end.
  keeps_tac.
Qed.

Lemma facetedSearch_keeps_handles args : keeps handles (MoviesDAO.facetedSearch args).
Proof.
  unfold MoviesDAO.facetedSearch, Driver.aggregate, Driver.next. keeps_tac.
Qed.

Lemma getMovieByID_keeps_handles id : keeps handles (MoviesDAO.getMovieByID id).
Proof.
  unfold MoviesDAO.getMovieByID, MoviesDAO.getMovieByID_try, Driver.aggregate,
    Driver.next.
  keeps_tac.
Qed.

Lemma updateComment_keeps_handles c e t d :
  keeps handles (CommentsDAO.updateComment c e t d).
Proof.
  unfold CommentsDAO.updateComment. keeps_tac. apply updateOne_keeps_handles.
Qed.

Lemma deleteComment_keeps_handles c e : keeps handles (CommentsDAO.deleteComment c e).
Proof.
  unfold CommentsDAO.deleteComment. keeps_tac. apply deleteOne_keeps_handles.
Qed.

Lemma mostActiveCommenters_keeps_handles :
  keeps handles CommentsDAO.mostActiveCommenters.
Proof.
  unfold CommentsDAO.mostActiveCommenters, Driver.aggregate_comments. keeps_tac.
  apply toArray_comments_keeps; reflexivity.
Qed.
End dao_frames.

(** ** Sequences of DAO calls *)

Section runs.
Context `{QueryEngine}.

Lemma MoviesDAO_injectDB_guard conn w :
  is_Some (dao_movies w) -> MoviesDAO.injectDB conn w = (Ok tt, w).
Proof.
  intros [h Hh]. unfold MoviesDAO.injectDB, bind, gets. rewrite Hh. reflexivity.
Qed.

Lemma CommentsDAO_injectDB_guard conn w :
  is_Some (dao_comments w) -> CommentsDAO.injectDB conn w = (Ok tt, w).
Proof.
  intros [h Hh]. unfold CommentsDAO.injectDB, bind, gets. rewrite Hh. reflexivity.
Qed.

(** The two injections touch only their own DAO's handles. *)
Lemma MoviesDAO_injectDB_keeps_comments conn :
  keeps dao_comments (MoviesDAO.injectDB conn).
Proof.
  unfold MoviesDAO.injectDB, Driver.db, Driver.collection. keeps_tac.
Qed.

Lemma CommentsDAO_injectDB_keeps_movies conn :
  keeps dao_movies (CommentsDAO.injectDB conn).
Proof.
  unfold CommentsDAO.injectDB, Driver.db, Driver.collection. keeps_tac.
Qed.

Lemma handles_movies w w' : handles w' = handles w -> dao_movies w' = dao_movies w.
Proof. unfold handles. congruence. Qed.

Lemma handles_comments w w' : handles w' = handles w -> dao_comments w' = dao_comments w.
Proof. unfold handles. congruence. Qed.

Lemma run_call_keeps_movies c w :
  is_Some (dao_movies w) -> dao_movies (run_call c w) = dao_movies w.
Proof.
  intros Hset. destruct c; simpl.
  - rewrite MoviesDAO_injectDB_guard by exact Hset. reflexivity.
  - apply handles_movies, getConfiguration_keeps_handles.
  - apply handles_movies, getMoviesByCountry_keeps_handles.
  - apply handles_movies, getMovies_keeps_handles.
  - apply handles_movies, facetedSearch_keeps_handles.
  - apply handles_movies, getMovieByID_keeps_handles.
  - apply CommentsDAO_injectDB_keeps_movies.
  - apply handles_movies, addComment_keeps_handles.
  - apply handles_movies, updateComment_keeps_handles.
  - apply handles_movies, deleteComment_keeps_handles.
  - apply handles_movies, mostActiveCommenters_keeps_handles.
Qed.

Lemma run_call_keeps_comments c w :
  is_Some (dao_comments w) -> dao_comments (run_call c w) = dao_comments w.
Proof.
  intros Hset. destruct c; simpl.
  - apply MoviesDAO_injectDB_keeps_comments.
  - apply handles_comments, getConfiguration_keeps_handles.
  - apply handles_comments, getMoviesByCountry_keeps_handles.
  - apply handles_comments, getMovies_keeps_handles.
  - apply handles_comments, facetedSearch_keeps_handles.
  - apply handles_comments, getMovieByID_keeps_handles.
  - rewrite CommentsDAO_injectDB_guard by exact Hset. reflexivity.
  - apply handles_comments, addComment_keeps_handles.
  - apply handles_comments, updateComment_keeps_handles.
  - apply handles_comments, deleteComment_keeps_handles.
  - apply handles_comments, mostActiveCommenters_keeps_handles.
Qed.

Lemma run_calls_keeps_movies cs : forall w,
  is_Some (dao_movies w) -> dao_movies (run_calls cs w) = dao_movies w.
Proof.
  induction cs as [|c cs IH]; intros w Hset.
  - reflexivity.
  - pose proof (run_call_keeps_movies c w Hset) as Hc.
    change (run_calls (c :: cs) w) with (run_calls cs (run_call c w)).
    rewrite IH; [exact Hc | rewrite Hc; exact Hset].
Qed.

Lemma run_calls_keeps_comments cs : forall w,
  is_Some (dao_comments w) -> dao_comments (run_calls cs w) = dao_comments w.
Proof.
  induction cs as [|c cs IH]; intros w Hset.
  - reflexivity.
  - pose proof (run_call_keeps_comments c w Hset) as Hc.
    change (run_calls (c :: cs) w) with (run_calls cs (run_call c w)).
    rewrite IH; [exact Hc | rewrite Hc; exact Hset].
Qed.

(** The first [injectDB] of each DAO, when the driver does not fail, stores
    the handle of the collection of the given client. *)
Lemma MoviesDAO_injectDB_first conn w :
  dao_movies w = None -> faults w = [] ->
  dao_movies (snd (MoviesDAO.injectDB conn w))
    = Some (mkCollection (mkDb conn (env_MFLIX_NS w)) "movies") /\
  dao_mflix (snd (MoviesDAO.injectDB conn w)) = Some (mkDb conn (env_MFLIX_NS w)).
Proof.
  intros Hh Hf. destruct w as [ms cs hm hf hc ns fs tr con]. simpl in *. subst.
  split; reflexivity.
Qed.

Lemma CommentsDAO_injectDB_first conn w :
  dao_comments w = None -> faults w = [] ->
  dao_comments (snd (CommentsDAO.injectDB conn w))
    = Some (mkCollection (mkDb conn (env_MFLIX_NS w)) "comments").
Proof.
  intros Hh Hf. destruct w as [ms cs hm hf hc ns fs tr con]. simpl in *. subst.
  reflexivity.
Qed.

(** [injectDB] of [MoviesDAO] can leave [#mflix] set and [#movies] unset:
    the guard looks at [#movies] only. *)
Lemma MoviesDAO_injectDB_partial conn w e rest :
  dao_movies w = None -> faults w = None :: Some e :: rest ->
  dao_movies (snd (MoviesDAO.injectDB conn w)) = None /\
  dao_mflix (snd (MoviesDAO.injectDB conn w)) = Some (mkDb conn (env_MFLIX_NS w)) /\
  fst (MoviesDAO.injectDB conn w) = Ok tt.
Proof.
  intros Hh Hf. destruct w as [ms cs hm hf hc ns fs tr con]. simpl in *. subst.
  repeat split.
Qed.
(** C8: [injectDB] is idempotent in both DAOs.  Once the collection handle
    of a DAO is set, a further [injectDB] of that DAO, with whatever
    client, returns at once and leaves the whole world as it was (no
    driver call, handle untouched); and no sequence of DAO calls changes
    a handle that is set, so it is written at most once. *)
Theorem injectDB_idempotent (conn : MongoClient) (w : World) :
  (is_Some (dao_movies w) -> MoviesDAO.injectDB conn w = (Ok tt, w)) /\
  (is_Some (dao_comments w) -> CommentsDAO.injectDB conn w = (Ok tt, w)) /\
  (is_Some (dao_movies w) ->
     forall cs, dao_movies (run_calls cs w) = dao_movies w) /\
  (is_Some (dao_comments w) ->
     forall cs, dao_comments (run_calls cs w) = dao_comments w).
Proof.
  split; [apply MoviesDAO_injectDB_guard|].
  split; [apply CommentsDAO_injectDB_guard|].
  split; intros Hset cs.
  - apply run_calls_keeps_movies, Hset.
  - apply run_calls_keeps_comments, Hset.
Qed.
End runs.

(** ** Comments: the owner check *)

Section owner_check.

Lemma filter_matches_mismatch oid userEmail c :
  (c_id c = oid -> email c <> userEmail) ->
  Driver.filter_matches (mkCommentFilter oid userEmail) c = false.
Proof.
  intros Hne. unfold Driver.filter_matches; simpl.
  destruct (bool_decide_reflect (c_id c = oid)) as [Hid|Hid]; simpl; [|reflexivity].
  apply String.eqb_neq. exact (Hne Hid).
Qed.

Lemma update_first_no_match flt u cs :
  (forall c, c ∈ cs -> Driver.filter_matches flt c = false) ->
  Driver.update_first flt u cs = (mkUpdateResult 0 0, cs).
Proof.
  induction cs as [|c cs IH]; intros Hno; simpl.
  - reflexivity.
  - rewrite (Hno c) by left.
    rewrite IH; [reflexivity|]. intros c' Hc'. apply Hno. right. exact Hc'.
Qed.

Lemma delete_first_no_match flt cs :
  (forall c, c ∈ cs -> Driver.filter_matches flt c = false) ->
  Driver.delete_first flt cs = (mkDeleteResult 0, cs).
Proof.
  induction cs as [|c cs IH]; intros Hno; simpl.
  - reflexivity.
  - rewrite (Hno c) by left.
    rewrite IH; [reflexivity|]. intros c' Hc'. apply Hno. right. exact Hc'.
Qed.

(** Conversely, a filter that selects a stored comment changes the store
    on delete: the guard is the filter and nothing else. *)
Lemma delete_first_match flt cs c :
  c ∈ cs -> Driver.filter_matches flt c = true ->
  fst (Driver.delete_first flt cs) = mkDeleteResult 1.
Proof.
  induction cs as [|c' cs IH]; intros Hin Hm.
  - inversion Hin.
  - simpl. destruct (Driver.filter_matches flt c') eqn:Hc'; [reflexivity|].
    apply elem_of_cons in Hin as [->|Hin]; [congruence|].
    specialize (IH Hin Hm).
    destruct (Driver.delete_first flt cs) as [r rest]. exact IH.
Qed.

Variables (commentId userEmail : string) (oid : Bson.ObjectIdT) (w : World).
Hypothesis valid_id : Bson.ObjectId commentId = Ok oid.
Hypothesis not_owner :
  forall c, c ∈ comments_store w -> c_id c = oid -> email c <> userEmail.

Lemma no_comment_selected c :
  c ∈ comments_store w ->
  Driver.filter_matches (mkCommentFilter oid userEmail) c = false.
Proof. intros Hin. apply filter_matches_mismatch. apply not_owner, Hin. Qed.

Lemma updateComment_not_owner text date :
  let r := CommentsDAO.updateComment commentId userEmail text date w in
  comments_store (snd r) = comments_store w /\
  (fst r = Ok (Response (mkUpdateResult 0 0)) \/ exists e, fst r = Ok (ErrorWrapper e)) /\
  (is_Some (dao_comments w) -> next_fault w = None ->
     fst r = Ok (Response (mkUpdateResult 0 0)) /\
     calls (snd r) =
       (calls w ++ [(CallUpdateOne (mkCommentFilter oid userEmail)
                                  (mkCommentUpdate text date), true)])%list).
Proof.
  pose proof (update_first_no_match (mkCommentFilter oid userEmail)
                (mkCommentUpdate text date) _ no_comment_selected) as Hupd.
  unfold CommentsDAO.updateComment, try_catch, bind, deref, lift,
    Driver.updateOne, Driver.driver_call, Driver.pop_fault, next_fault.
  rewrite valid_id.
  destruct (dao_comments w) as [h|]; simpl.
  - destruct (faults w) as [|[e|] rest]; simpl; rewrite ?Hupd; simpl.
    + repeat split; eauto.
    + split; [reflexivity|]. split; [eauto|]. intros _ Hf. discriminate Hf.
    + repeat split; eauto.
  - split; [reflexivity|]. split; [eauto|]. intros [h Hh]. discriminate Hh.
Qed.

Lemma deleteComment_not_owner :
  let r := CommentsDAO.deleteComment commentId userEmail w in
  comments_store (snd r) = comments_store w /\
  (fst r = Ok (Response (mkDeleteResult 0)) \/ exists e, fst r = Ok (ErrorWrapper e)) /\
  (is_Some (dao_comments w) -> next_fault w = None ->
     fst r = Ok (Response (mkDeleteResult 0)) /\
     calls (snd r) =
       (calls w ++ [(CallDeleteOne (mkCommentFilter oid userEmail), true)])%list).
Proof.
  pose proof (delete_first_no_match (mkCommentFilter oid userEmail)
                _ no_comment_selected) as Hdel.
  unfold CommentsDAO.deleteComment, try_catch, bind, deref, lift,
    Driver.deleteOne, Driver.driver_call, Driver.pop_fault, next_fault.
  rewrite valid_id.
  destruct (dao_comments w) as [h|]; simpl.
  - destruct (faults w) as [|[e|] rest]; simpl; rewrite ?Hdel; simpl.
    + repeat split; eauto.
    + split; [reflexivity|]. split; [eauto|]. intros _ Hf. discriminate Hf.
    + repeat split; eauto.
  - split; [reflexivity|]. split; [eauto|]. intros [h Hh]. discriminate Hh.
Qed.

(** C1: for a valid comment identifier and an email that is not the one
    stored on that comment, [updateComment] and [deleteComment] leave the
    stored comments as they are and report a zero count: the response is
    [matchedCount = modifiedCount = 0], respectively [deletedCount = 0],
    whenever the driver call is made and completes, and the error wrapper
    otherwise.  The call the driver receives carries the filter
    [{ _id, email }] built from the two arguments. *)
Theorem not_owner_zero_count_and_unchanged (text : string) (date : Z) :
  let up := CommentsDAO.updateComment commentId userEmail text date w in
  let del := CommentsDAO.deleteComment commentId userEmail w in
  (comments_store (snd up) = comments_store w /\
   comments_store (snd del) = comments_store w) /\
  ((fst up = Ok (Response (mkUpdateResult 0 0)) \/
      exists e, fst up = Ok (ErrorWrapper e)) /\
   (fst del = Ok (Response (mkDeleteResult 0)) \/
      exists e, fst del = Ok (ErrorWrapper e))) /\
  (is_Some (dao_comments w) -> next_fault w = None ->
     fst up = Ok (Response (mkUpdateResult 0 0)) /\
     fst del = Ok (Response (mkDeleteResult 0)) /\
     calls (snd up) =
       (calls w ++ [(CallUpdateOne (mkCommentFilter oid userEmail)
                                  (mkCommentUpdate text date), true)])%list /\
     calls (snd del) =
       (calls w ++ [(CallDeleteOne (mkCommentFilter oid userEmail), true)])%list).
Proof.
  intros up del.
  destruct (updateComment_not_owner text date) as (Hu1 & Hu2 & Hu3).
  destruct deleteComment_not_owner as (Hd1 & Hd2 & Hd3).
  split; [split; assumption|]. split; [split; assumption|].
  intros Hh Hf. destruct (Hu3 Hh Hf) as [? ?]. destruct (Hd3 Hh Hf) as [? ?].
  repeat split; assumption.
Qed.
End owner_check.

(** ** Movies: rejections and failures *)

Lemma new_calls_app (tr more : list (DriverCall * bool)) :
  drop (length tr) (tr ++ more)%list = more.
Proof. apply drop_app_length. Qed.

Lemma new_calls_same (tr : list (DriverCall * bool)) : drop (length tr) tr = [].
Proof. apply drop_all. Qed.

(** Splits on the outcomes planned for the driver calls of a run. *)
Ltac fault_cases :=
  repeat match goal with
  | |- context [match ?fs with [] => _ | _ :: _ => _ end] =>
      is_var fs; destruct fs as [|[?|] ?]; simpl
  end.

(** Brings the trace of a run into the form [old ++ new]. *)
Ltac trace_norm :=
  unfold some_call_failed, new_calls; simpl;
  rewrite <- ?app_assoc; simpl;
  rewrite ?new_calls_app, ?new_calls_same.

Ltac has_failed_call :=
  eexists; repeat first [apply list_elem_of_here | apply list_elem_of_further].

Ltac has_failed_call_at :=
  repeat first [apply list_elem_of_here | apply list_elem_of_further].

Ltac no_failed_call H :=
  let c := fresh "c" in
  destruct H as [c H];
  repeat (apply elem_of_cons in H as [H|H]; [discriminate H|]);
  apply elem_of_nil in H; destruct H.

Section movies_failures.
Context `{QueryEngine}.

(** C3: [facetedSearch] without a filter ([filters] left out or [null],
    and likewise the empty object) is rejected with an error, and the
    world after the call is the world before it: no [aggregate] and no
    other driver call has been issued. *)
Theorem facetedSearch_no_filter_rejected (page moviesPerPage : option Z) (w : World) :
  MoviesDAO.facetedSearch (mkSearchArgs None page moviesPerPage) w
    = (Throw mustSpecifyCast, w) /\
  MoviesDAO.facetedSearch (mkSearchArgs (Some ∅) page moviesPerPage) w
    = (Throw mustSpecifyCast, w) /\
  calls (snd (MoviesDAO.facetedSearch (mkSearchArgs None page moviesPerPage) w))
    = calls w.
Proof. repeat split. Qed.

(** C10: [facetedSearch] throws "Must specify cast members to filter by."
    for every filter object without a [cast] key, whatever else it holds;
    the rejection is a thrown error, not a returned [{ error }] object,
    and nothing is sent to the driver. *)
Theorem facetedSearch_requires_cast
    (filters : gmap string JsVal) (page moviesPerPage : option Z) (w : World) :
  filters !! "cast" = None ->
  MoviesDAO.facetedSearch (mkSearchArgs (Some filters) page moviesPerPage) w
    = (Throw mustSpecifyCast, w) /\
  forall v, fst (MoviesDAO.facetedSearch
                   (mkSearchArgs (Some filters) page moviesPerPage) w) <> Ok v.
Proof.
  intros Hcast.
  assert (MoviesDAO.facetedSearch (mkSearchArgs (Some filters) page moviesPerPage) w
            = (Throw mustSpecifyCast, w)) as Hrun.
  { unfold MoviesDAO.facetedSearch, get_prop; simpl. rewrite Hcast. reflexivity. }
  split; [exact Hrun|]. intros v. rewrite Hrun. discriminate.
Qed.

(** What [facetedSearch] does once the filter is accepted: either all four
    driver calls succeed, or the result is the fixed error object. *)
Lemma facetedSearch_accepted_cases args filters w :
  arg_filters args = Some filters ->
  truthy (get_prop filters "cast") = true ->
  let r := MoviesDAO.facetedSearch args w in
  (fst r = Ok MoviesDAO.tooLarge /\ console (snd r) = console w /\
   (some_call_failed w (snd r) \/ dao_movies w = None)) \/
  ((exists doc, fst r = Ok doc) /\ ~ some_call_failed w (snd r) /\
   is_Some (dao_movies w) /\
   map fst (new_calls w (snd r)) =
     [CallAggregateMovies
        (queryPipeline filters (default 0 (arg_page args))
                       (default 20 (arg_moviesPerPage args)));
      CallNext;
      CallAggregateMovies (countingPipeline filters);
      CallNext]).
Proof.
  intros Hf Hcast. destruct args as [fl pg mpp]; simpl in Hf; subst fl.
  destruct w as [ms cs hm hf hc ns fs tr con].
  unfold MoviesDAO.facetedSearch; simpl. rewrite Hcast; simpl.
  unfold try_catch, bind, deref, Driver.aggregate, Driver.next, Driver.driver_call,
    Driver.pop_fault, ret; simpl.
  destruct hm as [h|]; simpl.
  2:{ left. repeat split. right. reflexivity. }
  fault_cases; trace_norm;
    first [ left; split; [reflexivity|]; split; [reflexivity|]; left; has_failed_call
          | right; split; [eexists; reflexivity|]; split;
            [intros Hbad; no_failed_call Hbad | split; [eexists|]; reflexivity] ].
Qed.

(** C7: once the filter is accepted, a failure of any driver call of the
    two aggregations makes [facetedSearch] return the fixed object
    [{ error: "Results too large, be more restrictive in filter" }]; the
    error that was thrown appears neither in the result nor on the
    console. *)
Theorem facetedSearch_failure_generic_error
    (args : SearchArgs) (filters : gmap string JsVal) (w : World) :
  arg_filters args = Some filters ->
  truthy (get_prop filters "cast") = true ->
  some_call_failed w (snd (MoviesDAO.facetedSearch args w)) ->
  fst (MoviesDAO.facetedSearch args w)
    = Ok (VObj [("error", VStr "Results too large, be more restrictive in filter")]) /\
  console (snd (MoviesDAO.facetedSearch args w)) = console w.
Proof.
  intros Hf Hcast Hfail.
  destruct (facetedSearch_accepted_cases args filters w Hf Hcast)
    as [(Hr & Hc & _)|(_ & Hno & _)].
  - split; [exact Hr | exact Hc].
  - contradiction.
Qed.
End movies_failures.

(** ** Movies: lookup by identifier *)

Section movie_by_id.
Context `{QueryEngine}.

Lemma ObjectId_throws_InvalidId id e :
  Bson.ObjectId id = Throw e -> e = Bson.InvalidId.
Proof.
  unfold Bson.ObjectId.
  destruct (Nat.eqb (String.length id) 24).
  - destruct (Bson.decode_hex id); congruence.
  - destruct (Nat.eqb (String.length id) 12); congruence.
Qed.

Lemma isValid_false id : Bson.isValid id = false -> Bson.ObjectId id = Throw Bson.InvalidId.
Proof.
  unfold Bson.isValid. destruct (Bson.ObjectId id) as [o|e] eqn:Hid; [discriminate|].
  intros _. f_equal. eapply ObjectId_throws_InvalidId, Hid.
Qed.


(** The catch clause, on whatever the [try] block throws. *)
Lemma getMovieByID_catch id w e w1 :
  MoviesDAO.getMovieByID_try id w = (Throw e, w1) ->
  MoviesDAO.getMovieByID id w =
    if startsWith (toString e) MoviesDAO.invalidIdPrefix
    then (Ok VNull, w1)
    else (Throw e, log_console (wentWrong e) w1).
Proof.
  intros Htry. unfold MoviesDAO.getMovieByID, try_catch. rewrite Htry.
  destruct (startsWith (toString e) MoviesDAO.invalidIdPrefix); reflexivity.
Qed.

(** With a well-formed identifier, a handle that was never injected shows
    as a [TypeError] at the caller. *)
Lemma getMovieByID_no_handle id w :
  Bson.isValid id = true -> dao_movies w = None ->
  MoviesDAO.getMovieByID id w =
    (Throw (TypeError_undefined "aggregate"),
     log_console (wentWrong (TypeError_undefined "aggregate")) w).
Proof.
  intros Hv Hh. unfold Bson.isValid in Hv.
  destruct (Bson.ObjectId id) as [o|e0] eqn:Hid; [|discriminate].
  rewrite (getMovieByID_catch id w (TypeError_undefined "aggregate") w).
  - reflexivity.
  - unfold MoviesDAO.getMovieByID_try, bind, lift, deref. rewrite Hid, Hh. reflexivity.
Qed.


End movie_by_id.

(** ** Movies: the paginated list *)

Section get_movies.
Context `{QueryEngine}.

Lemma has_prop_Some key (filters : gmap string JsVal) :
  is_Some (filters !! key) -> has_prop key filters = true.
Proof. intros Hk. unfold has_prop. apply bool_decide_eq_true. exact Hk. Qed.

Lemma has_prop_None key (filters : gmap string JsVal) :
  filters !! key = None -> has_prop key filters = false.
Proof.
  intros Hk. unfold has_prop. apply bool_decide_eq_false.
  rewrite Hk. intros [v Hv]. discriminate Hv.
Qed.

(** With a handle and no failure planned, the first three driver calls of
    [getMovies] are [find], [project] and [sort] on the destructured
    query parameters. *)
Lemma getMovies_sends fl page moviesPerPage qp w :
  MoviesDAO.chooseQueryParams fl = Ok qp ->
  is_Some (dao_movies w) -> faults w = [] ->
  take 3 (map fst (new_calls w
            (snd (MoviesDAO.getMovies (mkSearchArgs fl page moviesPerPage) w))))
    = [CallFind (default QEmpty (query qp));
       CallProject (default [] (project qp));
       CallSort (default MoviesDAO.DEFAULT_SORT (sort qp))].
Proof.
  intros Hqp [h Hh] Hf.
  destruct w as [ms cs hm hf hc ns fs tr con]; simpl in Hh, Hf; subst hm fs.
  unfold MoviesDAO.getMovies; simpl. unfold bind at 1 3, lift. rewrite Hqp; simpl.
  unfold try_catch, bind, deref, ret, console_error, modify, Driver.find,
    Driver.cursor_project, Driver.cursor_sort, Driver.cursor_skip, Driver.cursor_limit,
    Driver.toArray, Driver.countDocuments, Driver.run_find, Driver.driver_call,
    Driver.pop_fault; simpl.
  repeat match goal with
  | |- context [if ?b then _ else _] => destruct b eqn:?; simpl
  end; trace_norm; reflexivity.
Qed.

Lemma get_prop_Some (filters : gmap string JsVal) key v :
  filters !! key = Some v -> get_prop filters key = v.
Proof. intros Hk. unfold get_prop. rewrite Hk. reflexivity. Qed.

(** C9: the query kind of [getMovies] is chosen by key with a fixed
    precedence: [text] before [cast] before [genre], whatever other keys
    the filters object has.  A filters object with none of the three keys
    gives the same query parameters as no filter (the query [{}], the
    projection [{}] and the sort by tomatoes.viewer.numReviews descending),
    and [getMovies] runs on it exactly as on no filter.  The choice is what
    [getMovies] sends: with a handle and no failure planned, its first
    three driver calls are [find], [project] and [sort] with the text
    query, score projection and score sort when [text] is present; else
    with the [cast] membership query when [cast] is present; else with the
    [genres] membership query when [genre] is present; else with the query
    [{}]; in the last three cases with the projection [{}] and the sort by
    tomatoes.viewer.numReviews descending. *)
Theorem getMovies_filter_precedence (filters : gmap string JsVal) :
  ((is_Some (filters !! "text") ->
     MoviesDAO.chooseQueryParams (Some filters)
       = Ok (MoviesDAO.textSearchQuery (get_prop filters "text"))) /\
  (filters !! "text" = None -> is_Some (filters !! "cast") ->
     MoviesDAO.chooseQueryParams (Some filters)
       = MoviesDAO.castSearchQuery (get_prop filters "cast")) /\
  (filters !! "text" = None -> filters !! "cast" = None ->
   is_Some (filters !! "genre") ->
     MoviesDAO.chooseQueryParams (Some filters)
       = MoviesDAO.genreSearchQuery (get_prop filters "genre")) /\
  (filters !! "text" = None -> filters !! "cast" = None ->
   filters !! "genre" = None ->
     MoviesDAO.chooseQueryParams (Some filters) = MoviesDAO.chooseQueryParams None /\
     (exists qp, MoviesDAO.chooseQueryParams (Some filters) = Ok qp /\
        MoviesDAO.destructure qp
          = (QEmpty, [], [("tomatoes.viewer.numReviews", SDir (-1))])) /\
     forall page moviesPerPage w,
       MoviesDAO.getMovies (mkSearchArgs (Some filters) page moviesPerPage) w
         = MoviesDAO.getMovies (mkSearchArgs None page moviesPerPage) w)) /\
  (forall page moviesPerPage w,
     is_Some (dao_movies w) -> faults w = [] ->
     let sent :=
       take 3 (map fst (new_calls w
                 (snd (MoviesDAO.getMovies
                         (mkSearchArgs (Some filters) page moviesPerPage) w)))) in
     let by_reviews := [("tomatoes.viewer.numReviews", SDir (-1))] in
     (forall text, filters !! "text" = Some text ->
        sent = [CallFind (QText text);
                CallProject [("score", PMetaTextScore)];
                CallSort [("score", SMetaTextScore)]]) /\
     (filters !! "text" = None ->
        (forall l, filters !! "cast" = Some (VArr l) ->
           sent = [CallFind (QIn "cast" l); CallProject []; CallSort by_reviews]) /\
        (forall s, filters !! "cast" = Some (VStr s) ->
           sent = [CallFind (QIn "cast" (VStr <$> split_comma_space s));
                   CallProject []; CallSort by_reviews])) /\
     (filters !! "text" = None -> filters !! "cast" = None ->
        (forall l, filters !! "genre" = Some (VArr l) ->
           sent = [CallFind (QIn "genres" l); CallProject []; CallSort by_reviews]) /\
        (forall s, filters !! "genre" = Some (VStr s) ->
           sent = [CallFind (QIn "genres" (VStr <$> split_comma_space s));
                   CallProject []; CallSort by_reviews])) /\
     (filters !! "text" = None -> filters !! "cast" = None ->
      filters !! "genre" = None ->
        sent = [CallFind QEmpty; CallProject []; CallSort by_reviews])).
Proof.
  assert (is_Some (filters !! "text") ->
          MoviesDAO.chooseQueryParams (Some filters)
            = Ok (MoviesDAO.textSearchQuery (get_prop filters "text"))) as Htext.
  { intros Ht. unfold MoviesDAO.chooseQueryParams.
    rewrite (has_prop_Some _ _ Ht). reflexivity. }
  assert (filters !! "text" = None -> is_Some (filters !! "cast") ->
          MoviesDAO.chooseQueryParams (Some filters)
            = MoviesDAO.castSearchQuery (get_prop filters "cast")) as Hcast.
  { intros Ht Hc. unfold MoviesDAO.chooseQueryParams.
    rewrite (has_prop_None _ _ Ht), (has_prop_Some _ _ Hc). reflexivity. }
  assert (filters !! "text" = None -> filters !! "cast" = None ->
          is_Some (filters !! "genre") ->
          MoviesDAO.chooseQueryParams (Some filters)
            = MoviesDAO.genreSearchQuery (get_prop filters "genre")) as Hgenre.
  { intros Ht Hc Hg. unfold MoviesDAO.chooseQueryParams.
    rewrite (has_prop_None _ _ Ht), (has_prop_None _ _ Hc), (has_prop_Some _ _ Hg).
    reflexivity. }
  assert (filters !! "text" = None -> filters !! "cast" = None ->
          filters !! "genre" = None ->
          MoviesDAO.chooseQueryParams (Some filters) = MoviesDAO.chooseQueryParams None)
    as Hnone.
  { intros Ht Hc Hg. unfold MoviesDAO.chooseQueryParams.
    rewrite (has_prop_None _ _ Ht), (has_prop_None _ _ Hc), (has_prop_None _ _ Hg).
    reflexivity. }
  split; [split; [exact Htext | split; [exact Hcast | split; [exact Hgenre|]]]|].
  - intros Ht Hc Hg. specialize (Hnone Ht Hc Hg).
    split; [exact Hnone|]. split.
    + rewrite Hnone. eexists. split; reflexivity.
    + intros page moviesPerPage w. unfold MoviesDAO.getMovies.
      cbv [arg_filters arg_page arg_moviesPerPage]. rewrite Hnone. reflexivity.
  - intros page moviesPerPage w Hh Hf sent by_reviews. subst sent by_reviews.
    split; [|split; [|split]].
    + intros text Ht.
      rewrite (getMovies_sends _ page moviesPerPage _ w
                 (Htext (ex_intro _ text Ht)) Hh Hf).
      rewrite (get_prop_Some _ _ _ Ht). reflexivity.
    + intros Ht. split.
      * intros l Hc.
        assert (MoviesDAO.chooseQueryParams (Some filters)
                = Ok (mkQueryParams (Some (QIn "cast" l)) (Some [])
                        (Some MoviesDAO.DEFAULT_SORT))) as Hqp.
        { rewrite (Hcast Ht (ex_intro _ _ Hc)), (get_prop_Some _ _ _ Hc). reflexivity. }
        rewrite (getMovies_sends _ page moviesPerPage _ w Hqp Hh Hf). reflexivity.
      * intros s Hc.
        assert (MoviesDAO.chooseQueryParams (Some filters)
                = Ok (mkQueryParams (Some (QIn "cast" (VStr <$> split_comma_space s)))
                        (Some []) (Some MoviesDAO.DEFAULT_SORT))) as Hqp.
        { rewrite (Hcast Ht (ex_intro _ _ Hc)), (get_prop_Some _ _ _ Hc). reflexivity. }
        rewrite (getMovies_sends _ page moviesPerPage _ w Hqp Hh Hf). reflexivity.
    + intros Ht Hc. split.
      * intros l Hg.
        assert (MoviesDAO.chooseQueryParams (Some filters)
                = Ok (mkQueryParams (Some (QIn "genres" l)) (Some [])
                        (Some MoviesDAO.DEFAULT_SORT))) as Hqp.
        { rewrite (Hgenre Ht Hc (ex_intro _ _ Hg)), (get_prop_Some _ _ _ Hg).
          reflexivity. }
        rewrite (getMovies_sends _ page moviesPerPage _ w Hqp Hh Hf). reflexivity.
      * intros s Hg.
        assert (MoviesDAO.chooseQueryParams (Some filters)
                = Ok (mkQueryParams (Some (QIn "genres" (VStr <$> split_comma_space s)))
                        (Some []) (Some MoviesDAO.DEFAULT_SORT))) as Hqp.
        { rewrite (Hgenre Ht Hc (ex_intro _ _ Hg)), (get_prop_Some _ _ _ Hg).
          reflexivity. }
        rewrite (getMovies_sends _ page moviesPerPage _ w Hqp Hh Hf). reflexivity.
    + intros Ht Hc Hg.
      assert (MoviesDAO.chooseQueryParams (Some filters)
              = Ok (mkQueryParams None None None)) as Hqp.
      { rewrite (Hnone Ht Hc Hg). reflexivity. }
      rewrite (getMovies_sends _ page moviesPerPage _ w Hqp Hh Hf). reflexivity.
Qed.
End get_movies.

Section get_movies_failures.
Context `{QueryEngine}.

(** C6: whatever the arguments, if a driver call of the two [try] blocks
    fails ([find], [project] or [sort], or else [toArray] or
    [countDocuments]), [getMovies] returns the empty result set
    [{ moviesList: [], totalNumMovies: 0 }] and throws nothing. *)
Theorem getMovies_driver_failure_empty (args : SearchArgs) (w : World) :
  (exists c, (c, false) ∈ new_calls w (snd (MoviesDAO.getMovies args w))
             /\ in_try_block c = true) ->
  fst (MoviesDAO.getMovies args w) = Ok (mkGetMoviesResult [] 0).
Proof.
  destruct args as [fl pg mpp]. destruct w as [ms cs hm hf hc ns fs tr con].
  unfold MoviesDAO.getMovies; simpl. unfold bind at 1, lift.
  destruct (MoviesDAO.chooseQueryParams fl) as [qp|e]; simpl.
  2:{ trace_norm. intros (c & Hin & _). apply elem_of_nil in Hin. destruct Hin. }
  unfold try_catch, bind, deref, ret, console_error, modify, Driver.find,
    Driver.cursor_project, Driver.cursor_sort, Driver.cursor_skip, Driver.cursor_limit,
    Driver.toArray, Driver.countDocuments, Driver.run_find, Driver.driver_call,
    Driver.pop_fault; simpl.
  destruct hm as [h|]; simpl.
  2:{ reflexivity. }
  fault_cases;
  repeat match goal with
  | |- context [if ?b then _ else _] => destruct b eqn:?; simpl
  end; fault_cases; trace_norm; try reflexivity.
  all: intros (c & Hin & Hc);
    repeat (apply elem_of_cons in Hin as [Hin|Hin];
            [inversion Hin; subst; discriminate|]);
    apply elem_of_nil in Hin; destruct Hin.
Qed.
(** The calls to [skip] and [limit] are outside both [try] blocks: their
    failure is thrown on to the caller. *)
Lemma getMovies_skip_limit_failure_thrown args w qp e rest :
  MoviesDAO.chooseQueryParams (arg_filters args) = Ok qp ->
  is_Some (dao_movies w) ->
  faults w = None :: None :: None :: Some e :: rest \/
  faults w = None :: None :: None :: None :: Some e :: rest ->
  fst (MoviesDAO.getMovies args w) = Throw e.
Proof.
  intros Hqp [h Hh] Hf. destruct w as [ms cs hm hf hc ns fs tr con]. simpl in *. subst hm.
  unfold MoviesDAO.getMovies, bind at 1. unfold lift. rewrite Hqp. simpl.
  unfold try_catch, bind, deref, ret, Driver.find, Driver.cursor_project,
    Driver.cursor_sort, Driver.cursor_skip, Driver.cursor_limit, Driver.driver_call,
    Driver.pop_fault; simpl.
  destruct Hf as [-> | ->]; reflexivity.
Qed.

End get_movies_failures.

Section get_movies_pages.
Context `{QueryEngine}.

Lemma matching_positive (q : Query) (ms : list Movie) :
  (exists m, m ∈ ms /\ matches q m = true) ->
  0 < Z.of_nat (length (List.filter (matches q) ms)).
Proof.
  intros (m & Hin & Hm).
  assert (In m (List.filter (matches q) ms)) as Hf.
  { apply filter_In. split; [apply list_elem_of_In, Hin | exact Hm]. }
  destruct (List.filter (matches q) ms); [destruct Hf | simpl; lia].
Qed.

(** C4: for a [getMovies] call that succeeds (handle injected, no driver
    call failed), [moviesList] is the requested page of the matching
    movies; on page 0 [totalNumMovies] is the number of stored movies the
    query matches, which is positive when there is a match; on any other
    page (so for every page > 0) [totalNumMovies] is 0, however many
    movies match. *)
Theorem getMovies_total_on_first_page_only
    (args : SearchArgs) (w : World) (r : GetMoviesResult) :
  is_Some (dao_movies w) ->
  fst (MoviesDAO.getMovies args w) = Ok r ->
  ~ some_call_failed w (snd (MoviesDAO.getMovies args w)) ->
  let page := default 0 (arg_page args) in
  let moviesPerPage := default 20 (arg_moviesPerPage args) in
  exists qp q p s,
    MoviesDAO.chooseQueryParams (arg_filters args) = Ok qp /\
    MoviesDAO.destructure qp = (q, p, s) /\
    moviesList r = page_of q p s page moviesPerPage (movies_store w) /\
    (page = 0 ->
       totalNumMovies r = Z.of_nat (length (List.filter (matches q) (movies_store w))) /\
       ((exists m, m ∈ movies_store w /\ matches q m = true) -> 0 < totalNumMovies r)) /\
    (page <> 0 -> totalNumMovies r = 0).
Proof.
  destruct args as [fl pg mpp]. destruct w as [ms cs hm hf hc ns fs tr con].
  intros [h Hh]; simpl in Hh; subst hm.
  unfold MoviesDAO.getMovies; simpl. unfold bind at 1 3, lift.
  destruct (MoviesDAO.chooseQueryParams fl) as [qp|e]; simpl; [|discriminate].
  unfold page_of, try_catch, bind, deref, ret, console_error, modify, Driver.find,
    Driver.cursor_project, Driver.cursor_sort, Driver.cursor_skip, Driver.cursor_limit,
    Driver.toArray, Driver.countDocuments, Driver.run_find, Driver.driver_call,
    Driver.pop_fault; simpl.
  fault_cases;
  repeat match goal with
  | |- context [if ?b then _ else _] => destruct b eqn:?; simpl
  end; fault_cases; trace_norm; intros Hr Hno;
  try discriminate Hr;
  try (exfalso; apply Hno; has_failed_call; fail).
  all: inversion Hr; subst r; clear Hr; simpl;
    exists qp, (default QEmpty (query qp)), (default [] (project qp)),
      (default MoviesDAO.DEFAULT_SORT (sort qp));
    split; [reflexivity|]; split; [reflexivity|]; split; [reflexivity|].
  all: match goal with
       | Hp : (_ =? 0) = true |- _ => apply Z.eqb_eq in Hp
       | Hp : (_ =? 0) = false |- _ => apply Z.eqb_neq in Hp
       end;
    split;
    [ intros Hz; first [contradiction | split; [reflexivity | apply matching_positive]]
    | intros Hnz; first [contradiction | reflexivity] ].
Qed.
End get_movies_pages.

(** ** Comments: the most active commenters *)

Section most_active.

#[local] Instance count_desc_total : Total Driver.count_desc.
Proof. intros a b. unfold Driver.count_desc. lia. Qed.

#[local] Instance count_desc_trans : Transitive Driver.count_desc.
Proof. intros a b c. unfold Driver.count_desc. lia. Qed.

Lemma Sorted_take {A} (R : relation A) (n : nat) (l : list A) :
  Sorted R l -> Sorted R (take n l).
Proof.
  intros Hs. revert n. induction Hs as [|x l Hs IH Hhd]; intros [|n]; simpl;
    try constructor.
  - apply IH.
  - destruct Hhd as [|y l' Hxy]; destruct n; simpl; constructor. exact Hxy.
Qed.

Lemma mapM_email (cs : list Comment) :
  mapM (Driver.comment_field "$email") cs = Some (email <$> cs).
Proof.
  induction cs as [|c cs IH]; [reflexivity|].
  apply mapM_Some. constructor; [reflexivity|]. apply mapM_Some, IH.
Qed.

Lemma pipeline_result (cs : list Comment) :
  Driver.eval_comment_pipeline CommentsDAO.pipeline cs = Some (top_commenters cs).
Proof.
  unfold Driver.eval_comment_pipeline, CommentsDAO.pipeline.
  rewrite mapM_email. reflexivity.
Qed.

Lemma group_count_row (keys : list string) (r : CommenterCount) :
  r ∈ Driver.group_count keys ->
  group_id r ∈ keys /\ count r = length (filter (fun x => x = group_id r) keys).
Proof.
  unfold Driver.group_count. intros Hin.
  apply list_elem_of_fmap in Hin as (k & -> & Hk). simpl.
  split; [apply elem_of_remove_dups, Hk | reflexivity].
Qed.

Lemma group_count_ids (keys : list string) :
  group_id <$> Driver.group_count keys = remove_dups keys.
Proof.
  unfold Driver.group_count. rewrite <- list_fmap_compose.
  induction (remove_dups keys) as [|k ks IH]; simpl; [reflexivity|].
  f_equal. exact IH.
Qed.

Lemma filter_nonempty_length (k : string) (keys : list string) :
  k ∈ keys -> (0 < length (filter (fun x => x = k) keys))%nat.
Proof.
  intros Hin.
  assert (k ∈ filter (fun x => x = k) keys) as Hf
    by (apply list_elem_of_filter; split; [reflexivity | exact Hin]).
  destruct (filter (fun x => x = k) keys); [inversion Hf | simpl; lia].
Qed.

Lemma count_emails (k : string) (cs : list Comment) :
  length (filter (fun x => x = k) (email <$> cs))
    = length (filter (fun c => email c = k) cs).
Proof.
  induction cs as [|c cs IH]; [reflexivity|].
  rewrite fmap_cons, !filter_cons.
  destruct (decide (email c = k)); simpl; rewrite IH; reflexivity.
Qed.

Lemma top_commenters_spec (cs : list Comment) :
  (length (top_commenters cs) <= 20)%nat /\
  Sorted Driver.count_desc (top_commenters cs) /\
  NoDup (group_id <$> top_commenters cs) /\
  forall r, r ∈ top_commenters cs ->
    (0 < count r)%nat /\
    count r = length (filter (fun c => email c = group_id r) cs).
Proof.
  unfold top_commenters. split; [|split; [|split]].
  - rewrite length_take. lia.
  - apply Sorted_take, Sorted_merge_sort. apply _.
  - rewrite fmap_take. eapply sublist_NoDup; [|apply sublist_take].
    rewrite merge_sort_Permutation, group_count_ids. apply NoDup_remove_dups.
  - intros r Hr. apply subseteq_take in Hr. rewrite merge_sort_Permutation in Hr.
    apply group_count_row in Hr as [Hk Hc]. split.
    + rewrite Hc. apply filter_nonempty_length, Hk.
    + rewrite Hc. apply count_emails.
Qed.

(** Every run ends in the error wrapper or in the rows of the pipeline;
    the latter whenever the handle is injected and no failure is planned
    for the two driver calls. *)
Lemma mostActiveCommenters_run (w : World) :
  let r := CommentsDAO.mostActiveCommenters w in
  comments_store (snd r) = comments_store w /\
  ((exists e, fst r = Ok (ErrorWrapper e)) \/
   fst r = Ok (Response (top_commenters (comments_store w)))) /\
  (is_Some (dao_comments w) -> Forall (fun f => f = None) (take 2 (faults w)) ->
   fst r = Ok (Response (top_commenters (comments_store w)))).
Proof.
  destruct w as [ms cs hm hf hc ns fs tr con].
  unfold CommentsDAO.mostActiveCommenters, try_catch, bind, deref, ret,
    Driver.aggregate_comments, Driver.toArray_comments, Driver.driver_call,
    Driver.pop_fault; simpl.
  destruct hc as [h|]; simpl.
  2:{ split; [reflexivity|]. split; [left; eauto|]. intros [h Hh]. discriminate Hh. }
  fault_cases; rewrite ?mapM_email; simpl;
    (split; [reflexivity|]); (split; [first [right; reflexivity | left; eauto]|]);
    intros _ Hplan; try reflexivity; exfalso;
    repeat match goal with
    | Hf : Forall _ (_ :: _) |- _ => apply Forall_cons in Hf as [? Hf]
    end; discriminate.
Qed.

(** C5 (amended): when [mostActiveCommenters] returns a list, it has at
    most 20 entries, each an email with the number of stored comments of
    that email (at least one), no email twice, in order of
    non-increasing count. *)
Theorem mostActiveCommenters_at_most_20_sorted
    (w : World) (rows : list CommenterCount) :
  fst (CommentsDAO.mostActiveCommenters w) = Ok (Response rows) ->
  (length rows <= 20)%nat /\
  Sorted (fun a b => (count b <= count a)%nat) rows /\
  NoDup (group_id <$> rows) /\
  forall r, r ∈ rows ->
    (0 < count r)%nat /\
    count r = length (filter (fun c => email c = group_id r) (comments_store w)).
Proof.
  intros Hrun.
  destruct (mostActiveCommenters_run w) as (_ & [[e He]|Hrows] & _).
  - rewrite He in Hrun. discriminate Hrun.
  - rewrite Hrows in Hrun. injection Hrun as <-. apply top_commenters_spec.
Qed.

(** Two commenters with the same number of comments: the counts of the
    returned list are not strictly decreasing. *)
Lemma mostActiveCommenters_ties_not_strict :
  exists rows,
    fst (CommentsDAO.mostActiveCommenters Example.world) = Ok (Response rows) /\
    ~ Sorted (fun a b => (count b < count a)%nat) rows.
Proof.
  eexists. split; [vm_compute; reflexivity|].
  intros Hs. inversion Hs as [|? ? Hs1 _]; subst.
  inversion Hs1 as [|? ? _ Hhd]; subst.
  inversion Hhd as [|? ? Hlt]; subst. simpl in Hlt. lia.
Qed.
End most_active.

(** ** Runs on the example database *)

Section example_runs.
Import Example.

Example added_comment :
  comments_store posted
    = [ada; bob; ada2; cy; mkComment (oid 9) "Ada" "ada@x.com" (oid 7) "great film" 104].
Proof. vm_compute. reflexivity. Qed.

Example update_by_owner :
  comments_store (snd (CommentsDAO.updateComment (id_of 9) "ada@x.com" "revised" 105 posted))
    = [ada; bob; ada2; cy; mkComment (oid 9) "Ada" "ada@x.com" (oid 7) "revised" 105].
Proof. vm_compute. reflexivity. Qed.

Example update_by_other :
  CommentsDAO.updateComment (id_of 9) "eve@x.com" "revised" 105 posted
    = (Ok (Response (mkUpdateResult 0 0)),
       log_call (CallUpdateOne (mkCommentFilter (oid 9) "eve@x.com")
                               (mkCommentUpdate "revised" 105)) true posted).
Proof. vm_compute. reflexivity. Qed.

Example startup :
  handles (run_calls [MoviesInjectDB client; CommentsInjectDB client] fresh)
    = handles world.
Proof. vm_compute. reflexivity. Qed.

Example configuration :
  fst (MoviesDAO.getConfiguration world)
    = Ok (mkConfigurationResult (VNum 50) (VNum 2500)
            (VObj [("role", VStr "readWrite"); ("db", VStr "sample_mflix")])).
Proof. vm_compute. reflexivity. Qed.

Example movies_by_country :
  fst (MoviesDAO.getMoviesByCountry [VStr "UK"] world) = Ok [VObj [("title", VStr "Alien")]].
Proof. vm_compute. reflexivity. Qed.

(** Bob's email on Ada's comment: nothing changes, both counts are zero. *)
Lemma not_owner_zero_count_and_unchanged_witness :
  let up := CommentsDAO.updateComment (id_of 1) "bob@x.com" "revised" 200 world in
  let del := CommentsDAO.deleteComment (id_of 1) "bob@x.com" world in
  Bson.ObjectId (id_of 1) = Ok (oid 1) /\
  email ada <> "bob@x.com" /\
  comments_store (snd up) = [ada; bob; ada2; cy] /\
  comments_store (snd del) = [ada; bob; ada2; cy] /\
  fst up = Ok (Response (mkUpdateResult 0 0)) /\
  fst del = Ok (Response (mkDeleteResult 0)).
Proof.
  assert (forall c, c ∈ comments_store world -> c_id c = oid 1 -> email c <> "bob@x.com")
    as Hno.
  { intros c Hin Hid.
    repeat (apply elem_of_cons in Hin as [->|Hin]);
      try (apply elem_of_nil in Hin; destruct Hin);
      first [discriminate Hid | discriminate]. }
  destruct (not_owner_zero_count_and_unchanged (id_of 1) "bob@x.com" (oid 1) world
              eq_refl Hno "revised" 200) as ((Hu & Hd) & _ & Hok).
  destruct (Hok (ex_intro _ h_comments eq_refl) eq_refl) as (Hru & Hrd & _).
  split; [reflexivity|]. split; [discriminate|].
  split; [exact Hu|]. split; [exact Hd|]. split; [exact Hru | exact Hrd].
Defined.


(** A genre-only filter is rejected. *)
Lemma facetedSearch_requires_cast_witness :
  genreFilter !! "cast" = None /\
  MoviesDAO.facetedSearch (mkSearchArgs (Some genreFilter) None None) world
    = (Throw mustSpecifyCast, world).
Proof.
  split; [reflexivity|].
  apply (facetedSearch_requires_cast genreFilter None None world). reflexivity.
Defined.

(** The first [next] fails: the fixed error object comes back. *)
Lemma facetedSearch_failure_generic_error_witness :
  some_call_failed (failing_after 1)
    (snd (MoviesDAO.facetedSearch (mkSearchArgs (Some castFilter) (Some 0) None)
            (failing_after 1))) /\
  fst (MoviesDAO.facetedSearch (mkSearchArgs (Some castFilter) (Some 0) None)
         (failing_after 1))
    = Ok (VObj [("error", VStr "Results too large, be more restrictive in filter")]).
Proof.
  assert (some_call_failed (failing_after 1)
            (snd (MoviesDAO.facetedSearch (mkSearchArgs (Some castFilter) (Some 0) None)
                    (failing_after 1)))) as Hfail.
  { exists CallNext. vm_compute. has_failed_call_at. }
  split; [exact Hfail|].
  apply (facetedSearch_failure_generic_error
           (mkSearchArgs (Some castFilter) (Some 0) None) castFilter (failing_after 1)
           eq_refl eq_refl Hfail).
Defined.

(** A second client does not replace the handles of the first. *)
Lemma injectDB_idempotent_witness :
  MoviesDAO.injectDB other_client world = (Ok tt, world) /\
  CommentsDAO.injectDB other_client world = (Ok tt, world) /\
  dao_movies (run_calls [MoviesInjectDB other_client; GetMovieByID "x";
                         CommentsInjectDB other_client] world) = Some h_movies /\
  dao_comments (run_calls [CommentsInjectDB other_client; MostActiveCommenters;
                           DeleteComment (id_of 1) "ada@x.com"] world) = Some h_comments.
Proof.
  destruct (injectDB_idempotent other_client world) as (Hm & Hc & Hms & Hcs).
  split; [apply Hm; eexists; reflexivity|].
  split; [apply Hc; eexists; reflexivity|].
  split; [apply Hms; eexists; reflexivity | apply Hcs; eexists; reflexivity].
Defined.

(** Filters with all three keys, with two, with one, and with none of them. *)
Lemma getMovies_filter_precedence_witness :
  MoviesDAO.chooseQueryParams (Some allFilters)
    = Ok (MoviesDAO.textSearchQuery (VStr "Heat")) /\
  MoviesDAO.chooseQueryParams (Some castAndGenre)
    = MoviesDAO.castSearchQuery (VStr "Al Pacino") /\
  MoviesDAO.chooseQueryParams (Some genreFilter)
    = MoviesDAO.genreSearchQuery (VStr "Crime") /\
  MoviesDAO.getMovies (mkSearchArgs (Some otherKeys) None None) world
    = MoviesDAO.getMovies (mkSearchArgs None None None) world /\
  take 3 (map fst (new_calls world
            (snd (MoviesDAO.getMovies (mkSearchArgs (Some allFilters) None None) world))))
    = [CallFind (QText (VStr "Heat")); CallProject [("score", PMetaTextScore)];
       CallSort [("score", SMetaTextScore)]] /\
  take 3 (map fst (new_calls world
            (snd (MoviesDAO.getMovies (mkSearchArgs (Some castAndGenre) None None) world))))
    = [CallFind (QIn "cast" [VStr "Al Pacino"]); CallProject [];
       CallSort [("tomatoes.viewer.numReviews", SDir (-1))]] /\
  take 3 (map fst (new_calls world
            (snd (MoviesDAO.getMovies (mkSearchArgs (Some genreFilter) None None) world))))
    = [CallFind (QIn "genres" [VStr "Crime"]); CallProject [];
       CallSort [("tomatoes.viewer.numReviews", SDir (-1))]] /\
  take 3 (map fst (new_calls world
            (snd (MoviesDAO.getMovies (mkSearchArgs (Some otherKeys) None None) world))))
    = [CallFind QEmpty; CallProject [];
       CallSort [("tomatoes.viewer.numReviews", SDir (-1))]].
Proof.
  assert (is_Some (dao_movies world)) as Hh by (eexists; reflexivity).
  assert (allFilters !! "text" = Some (VStr "Heat")) as Ha by (vm_compute; reflexivity).
  assert (castAndGenre !! "text" = None) as Hb1 by (vm_compute; reflexivity).
  assert (castAndGenre !! "cast" = Some (VStr "Al Pacino")) as Hb2
    by (vm_compute; reflexivity).
  assert (genreFilter !! "text" = None) as Hc1 by (vm_compute; reflexivity).
  assert (genreFilter !! "cast" = None) as Hc2 by (vm_compute; reflexivity).
  assert (genreFilter !! "genre" = Some (VStr "Crime")) as Hc3 by (vm_compute; reflexivity).
  assert (otherKeys !! "text" = None) as Hd1 by (vm_compute; reflexivity).
  assert (otherKeys !! "cast" = None) as Hd2 by (vm_compute; reflexivity).
  assert (otherKeys !! "genre" = None) as Hd3 by (vm_compute; reflexivity).
  destruct (getMovies_filter_precedence allFilters) as ((Ha1 & _) & Ha').
  destruct (getMovies_filter_precedence castAndGenre) as ((_ & Hb & _) & Hb').
  destruct (getMovies_filter_precedence genreFilter) as ((_ & _ & Hc & _) & Hc').
  destruct (getMovies_filter_precedence otherKeys) as ((_ & _ & _ & Hd) & Hd').
  destruct (Ha' None None world Hh eq_refl) as (Hta & _).
  destruct (Hb' None None world Hh eq_refl) as (_ & Htb & _).
  destruct (Hc' None None world Hh eq_refl) as (_ & _ & Htc & _).
  destruct (Hd' None None world Hh eq_refl) as (_ & _ & _ & Htd).
  split; [rewrite (Ha1 (ex_intro _ _ Ha)); vm_compute; reflexivity|].
  split; [rewrite (Hb Hb1 (ex_intro _ _ Hb2)); vm_compute; reflexivity|].
  split; [rewrite (Hc Hc1 Hc2 (ex_intro _ _ Hc3)); vm_compute; reflexivity|].
  split; [exact (proj2 (proj2 (Hd Hd1 Hd2 Hd3)) None None world)|].
  split; [exact (Hta _ Ha)|].
  split; [exact (proj2 (Htb Hb1) _ Hb2)|].
  split; [exact (proj2 (Htc Hc1 Hc2) _ Hc3) | exact (Htd Hd1 Hd2 Hd3)].
Defined.

(** [toArray] fails: the empty result set comes back. *)
Lemma getMovies_driver_failure_empty_witness :
  (exists c, (c, false) ∈ new_calls (failing_after 5)
               (snd (MoviesDAO.getMovies (mkSearchArgs None None None) (failing_after 5)))
             /\ in_try_block c = true) /\
  fst (MoviesDAO.getMovies (mkSearchArgs None None None) (failing_after 5))
    = Ok (mkGetMoviesResult [] 0).
Proof.
  assert (exists c, (c, false) ∈ new_calls (failing_after 5)
               (snd (MoviesDAO.getMovies (mkSearchArgs None None None) (failing_after 5)))
             /\ in_try_block c = true) as Hfail.
  { exists CallToArray. split; [vm_compute; has_failed_call_at | reflexivity]. }
  split; [exact Hfail|].
  apply (getMovies_driver_failure_empty (mkSearchArgs None None None) (failing_after 5) Hfail).
Defined.

(** Two movies with Robert De Niro, one per page: the total is counted on
    page 0 only. *)
Lemma getMovies_total_on_first_page_only_witness :
  let first := mkSearchArgs (Some castFilter) (Some 0) (Some 1) in
  let second := mkSearchArgs (Some castFilter) (Some 1) (Some 1) in
  is_Some (dao_movies world) /\
  ~ some_call_failed world (snd (MoviesDAO.getMovies first world)) /\
  ~ some_call_failed world (snd (MoviesDAO.getMovies second world)) /\
  (exists r, fst (MoviesDAO.getMovies first world) = Ok r /\
             moviesList r = [VObj [("title", VStr "Heat")]] /\
             0 < totalNumMovies r) /\
  (exists r, fst (MoviesDAO.getMovies second world) = Ok r /\
             moviesList r = [VObj [("title", VStr "Ronin")]] /\
             totalNumMovies r = 0).
Proof.
  intros first second.
  assert (is_Some (dao_movies world)) as Hh by (eexists; reflexivity).
  assert (~ some_call_failed world (snd (MoviesDAO.getMovies first world))) as Hno1.
  { intros Hbad. vm_compute in Hbad. no_failed_call Hbad. }
  assert (~ some_call_failed world (snd (MoviesDAO.getMovies second world))) as Hno2.
  { intros Hbad. vm_compute in Hbad. no_failed_call Hbad. }
  assert (fst (MoviesDAO.getMovies first world)
            = Ok (mkGetMoviesResult [VObj [("title", VStr "Heat")]] 2)) as Hr1
    by (vm_compute; reflexivity).
  assert (fst (MoviesDAO.getMovies second world)
            = Ok (mkGetMoviesResult [VObj [("title", VStr "Ronin")]] 0)) as Hr2
    by (vm_compute; reflexivity).
  split; [exact Hh|]. split; [exact Hno1|]. split; [exact Hno2|]. split.
  - eexists. split; [exact Hr1|]. split; [reflexivity|].
    destruct (getMovies_total_on_first_page_only first world _ Hh Hr1 Hno1)
      as (qp & q & p & s & Hq & Hd & _ & Hzero & _).
    apply Hzero; [reflexivity|].
    vm_compute in Hq. injection Hq as <-. injection Hd as <- _ _.
    exists heat. split; [left | vm_compute; reflexivity].
  - eexists. split; [exact Hr2|]. split; [reflexivity|].
    destruct (getMovies_total_on_first_page_only second world _ Hh Hr2 Hno2)
      as (qp & q & p & s & _ & _ & _ & _ & Hnz).
    apply Hnz. discriminate.
Defined.

(** The three commenters of the example, Ada first. *)
Lemma mostActiveCommenters_at_most_20_sorted_witness :
  fst (CommentsDAO.mostActiveCommenters world)
    = Ok (Response [mkCommenterCount "ada@x.com" 2; mkCommenterCount "cy@x.com" 1;
                    mkCommenterCount "bob@x.com" 1]) /\
  Sorted (fun a b => (count b <= count a)%nat)
    [mkCommenterCount "ada@x.com" 2; mkCommenterCount "cy@x.com" 1;
     mkCommenterCount "bob@x.com" 1].
Proof.
  assert (fst (CommentsDAO.mostActiveCommenters world)
    = Ok (Response [mkCommenterCount "ada@x.com" 2; mkCommenterCount "cy@x.com" 1;
                    mkCommenterCount "bob@x.com" 1])) as Hrun by (vm_compute; reflexivity).
  split; [exact Hrun|].
  apply (mostActiveCommenters_at_most_20_sorted world _ Hrun).
Defined.
End example_runs.

(** ** Comments: what the owner can do *)

Section comment_runs.
Context `{QueryEngine}.

Lemma updateComment_run commentId userEmail text date oid h w :
  dao_comments w = Some h -> next_fault w = None ->
  Bson.ObjectId commentId = Ok oid ->
  let flt := mkCommentFilter oid userEmail in
  let u := mkCommentUpdate text date in
  CommentsDAO.updateComment commentId userEmail text date w
    = (Ok (Response (fst (Driver.update_first flt u (comments_store w)))),
       after_call (CallUpdateOne flt u)
         (set_comments_store (snd (Driver.update_first flt u (comments_store w))) w)).
Proof.
  intros Hh Hf Hid. destruct w as [ms cs hm hf hc ns fs tr con]; simpl in *; subst hc.
  unfold CommentsDAO.updateComment, try_catch, bind, deref, lift, Driver.updateOne,
    Driver.driver_call, Driver.pop_fault, after_call, next_fault in *; simpl in *.
  rewrite Hid.
  destruct (Driver.update_first _ _ cs) as [r cs'] eqn:Hup.
  destruct fs as [|[e|] rest]; try discriminate; simpl; rewrite Hup; reflexivity.
Qed.

Lemma deleteComment_run commentId userEmail oid h w :
  dao_comments w = Some h -> next_fault w = None ->
  Bson.ObjectId commentId = Ok oid ->
  let flt := mkCommentFilter oid userEmail in
  CommentsDAO.deleteComment commentId userEmail w
    = (Ok (Response (fst (Driver.delete_first flt (comments_store w)))),
       after_call (CallDeleteOne flt)
         (set_comments_store (snd (Driver.delete_first flt (comments_store w))) w)).
Proof.
  intros Hh Hf Hid. destruct w as [ms cs hm hf hc ns fs tr con]; simpl in *; subst hc.
  unfold CommentsDAO.deleteComment, try_catch, bind, deref, lift, Driver.deleteOne,
    Driver.driver_call, Driver.pop_fault, after_call, next_fault in *; simpl in *.
  rewrite Hid.
  destruct (Driver.delete_first _ cs) as [r cs'] eqn:Hup.
  destruct fs as [|[e|] rest]; try discriminate; simpl; rewrite Hup; reflexivity.
Qed.

Lemma addComment_run movieId user comment date oid h w :
  dao_comments w = Some h -> next_fault w = None ->
  Bson.ObjectId movieId = Ok oid ->
  let id := generate_id (comments_store w) in
  CommentsDAO.addComment movieId user comment date w
    = (Ok (Response (mkInsertResult id)),
       after_call (CallInsertOne (user_name user) (user_email user) oid comment date)
         (set_comments_store
            (comments_store w
               ++ [mkComment id (user_name user) (user_email user) oid comment date])%list
            w)).
Proof.
  intros Hh Hf Hid. destruct w as [ms cs hm hf hc ns fs tr con]; simpl in *; subst hc.
  unfold CommentsDAO.addComment, try_catch, bind, deref, lift, Driver.insertOne,
    Driver.driver_call, Driver.pop_fault, after_call, next_fault in *; simpl in *.
  rewrite Hid.
  destruct fs as [|[e|] rest]; try discriminate; reflexivity.
Qed.

(** The first comment the filter selects, in a store split around it. *)
Lemma update_first_at flt u pre c post :
  (forall c', c' ∈ pre -> Driver.filter_matches flt c' = false) ->
  Driver.filter_matches flt c = true ->
  Driver.update_first flt u (pre ++ c :: post)%list
    = (mkUpdateResult 1 (if bool_decide (Driver.apply_update u c = c) then 0 else 1),
       (pre ++ Driver.apply_update u c :: post)%list).
Proof.
  intros Hpre Hc. induction pre as [|p pre IH]; simpl.
  - rewrite Hc. reflexivity.
  - rewrite (Hpre p) by left. rewrite IH; [reflexivity|].
    intros c' Hc'. apply Hpre. right. exact Hc'.
Qed.

Lemma delete_first_at flt pre c post :
  (forall c', c' ∈ pre -> Driver.filter_matches flt c' = false) ->
  Driver.filter_matches flt c = true ->
  Driver.delete_first flt (pre ++ c :: post)%list = (mkDeleteResult 1, (pre ++ post)%list).
Proof.
  intros Hpre Hc. induction pre as [|p pre IH]; simpl.
  - rewrite Hc. reflexivity.
  - rewrite (Hpre p) by left. rewrite IH; [reflexivity|].
    intros c' Hc'. apply Hpre. right. exact Hc'.
Qed.

Lemma filter_matches_other_id oid em c :
  c_id c <> oid -> Driver.filter_matches (mkCommentFilter oid em) c = false.
Proof.
  intros Hne. unfold Driver.filter_matches; simpl.
  rewrite bool_decide_eq_false_2 by exact Hne. reflexivity.
Qed.

Lemma filter_matches_owner c :
  Driver.filter_matches (mkCommentFilter (c_id c) (email c)) c = true.
Proof.
  unfold Driver.filter_matches; simpl.
  rewrite bool_decide_eq_true_2 by reflexivity. apply String.eqb_refl.
Qed.

(** X1: [updateComment] with the identifier of a stored comment and the
    email stored on it rewrites the text and the date of that comment and
    nothing else: its [_id], name, email and movie stay, every other
    comment stays, and the response has [matchedCount = 1]. *)
Theorem updateComment_by_owner commentId text date h w pre c post :
  dao_comments w = Some h -> next_fault w = None ->
  Bson.ObjectId commentId = Ok (c_id c) ->
  comments_store w = (pre ++ c :: post)%list ->
  (forall c', c' ∈ pre -> c_id c' <> c_id c) ->
  let r := CommentsDAO.updateComment commentId (email c) text date w in
  comments_store (snd r)
    = (pre ++ mkComment (c_id c) (name c) (email c) (movie_id c) text date :: post)%list /\
  (exists n, fst r = Ok (Response (mkUpdateResult 1 n))) /\
  movies_store (snd r) = movies_store w.
Proof.
  intros Hh Hf Hid Hst Hpre r. subst r.
  rewrite (updateComment_run _ _ _ _ _ h w Hh Hf Hid). simpl. rewrite Hst.
  rewrite update_first_at.
  - simpl. split; [reflexivity|]. split; [eexists; reflexivity | reflexivity].
  - intros c' Hc'. apply filter_matches_other_id, Hpre, Hc'.
  - apply filter_matches_owner.
Qed.

(** X2: [deleteComment] with the identifier of a stored comment and the
    email stored on it removes that comment and no other, and reports
    [deletedCount = 1]. *)
Theorem deleteComment_by_owner commentId h w pre c post :
  dao_comments w = Some h -> next_fault w = None ->
  Bson.ObjectId commentId = Ok (c_id c) ->
  comments_store w = (pre ++ c :: post)%list ->
  (forall c', c' ∈ pre -> c_id c' <> c_id c) ->
  let r := CommentsDAO.deleteComment commentId (email c) w in
  comments_store (snd r) = (pre ++ post)%list /\
  fst r = Ok (Response (mkDeleteResult 1)) /\
  movies_store (snd r) = movies_store w.
Proof.
  intros Hh Hf Hid Hst Hpre r. subst r.
  rewrite (deleteComment_run _ _ _ h w Hh Hf Hid). simpl. rewrite Hst.
  rewrite delete_first_at.
  - simpl. repeat split.
  - intros c' Hc'. apply filter_matches_other_id, Hpre, Hc'.
  - apply filter_matches_owner.
Qed.

(** X3: repeating an update changes nothing more: the second call finds the
    comment ([matchedCount = 1]), modifies nothing ([modifiedCount = 0]) and
    leaves the store as the first call left it. *)
Theorem updateComment_twice commentId text date h w pre c post :
  dao_comments w = Some h -> faults w = [] ->
  Bson.ObjectId commentId = Ok (c_id c) ->
  comments_store w = (pre ++ c :: post)%list ->
  (forall c', c' ∈ pre -> c_id c' <> c_id c) ->
  let w1 := snd (CommentsDAO.updateComment commentId (email c) text date w) in
  let r2 := CommentsDAO.updateComment commentId (email c) text date w1 in
  fst r2 = Ok (Response (mkUpdateResult 1 0)) /\
  comments_store (snd r2) = comments_store w1.
Proof.
  intros Hh Hf Hid Hst Hpre w1 r2.
  assert (next_fault w = None) as Hnf by (unfold next_fault; rewrite Hf; reflexivity).
  pose proof (updateComment_run commentId (email c) text date _ h w Hh Hnf Hid) as Hrun1.
  simpl in Hrun1. rewrite Hst in Hrun1. rewrite update_first_at in Hrun1;
    [ | intros c' Hc'; apply filter_matches_other_id, Hpre, Hc'
      | apply filter_matches_owner ].
  simpl in Hrun1.
  assert (w1 = snd (CommentsDAO.updateComment commentId (email c) text date w)) as Hw1
    by reflexivity.
  rewrite Hrun1 in Hw1. simpl in Hw1.
  assert (dao_comments w1 = Some h) as Hh1 by (rewrite Hw1; exact Hh).
  assert (next_fault w1 = None) as Hnf1
    by (rewrite Hw1; unfold next_fault; simpl; rewrite Hf; reflexivity).
  subst r2. rewrite (updateComment_run commentId (email c) text date _ h w1 Hh1 Hnf1 Hid).
  simpl.
  assert (comments_store w1 = (pre ++ Driver.apply_update (mkCommentUpdate text date) c :: post)%list)
    as Hst1 by (rewrite Hw1; reflexivity).
  rewrite Hst1.
  rewrite (update_first_at _ _ pre (Driver.apply_update (mkCommentUpdate text date) c) post).
  - simpl. rewrite bool_decide_eq_true_2 by reflexivity. split; reflexivity.
  - intros c' Hc'. apply filter_matches_other_id, Hpre, Hc'.
  - apply (filter_matches_owner (Driver.apply_update (mkCommentUpdate text date) c)).
Qed.


(** X4: a malformed identifier never reaches the driver.  [addComment]
    (whatever the handle), and [updateComment] and [deleteComment] (once the
    handle is injected) answer it with the error wrapper around the error of
    [ObjectId], log one line, and leave the stores and the trace as they
    were. *)
Theorem comment_ops_malformed_id id user comment userEmail text date w :
  Bson.isValid id = false ->
  CommentsDAO.addComment id user comment date w
    = (Ok (ErrorWrapper Bson.InvalidId),
       log_console (unableTo "post comment" Bson.InvalidId) w) /\
  (is_Some (dao_comments w) ->
   CommentsDAO.updateComment id userEmail text date w
     = (Ok (ErrorWrapper Bson.InvalidId),
        log_console (unableTo "update comment" Bson.InvalidId) w) /\
   CommentsDAO.deleteComment id userEmail w
     = (Ok (ErrorWrapper Bson.InvalidId),
        log_console (unableTo "delete comment" Bson.InvalidId) w)).
Proof.
  intros Hinv. apply isValid_false in Hinv.
  unfold CommentsDAO.addComment, CommentsDAO.updateComment, CommentsDAO.deleteComment,
    try_catch, bind, lift, deref.
  rewrite Hinv. split; [reflexivity|].
  intros [h Hh]. rewrite Hh. split; reflexivity.
Qed.

(** X5: [addComment] with a well-formed movie identifier appends exactly one
    comment, made of the arguments and the generated [_id], after the
    stored comments, which stay as they are; the response carries that
    [_id].  The movies are not consulted: the comment is stored whether or
    not a movie has the identifier. *)
Theorem addComment_appends movieId user comment date oid h w :
  dao_comments w = Some h -> next_fault w = None ->
  Bson.ObjectId movieId = Ok oid ->
  let r := CommentsDAO.addComment movieId user comment date w in
  let id := generate_id (comments_store w) in
  fst r = Ok (Response (mkInsertResult id)) /\
  comments_store (snd r)
    = (comments_store w
         ++ [mkComment id (user_name user) (user_email user) oid comment date])%list /\
  movies_store (snd r) = movies_store w /\
  new_calls w (snd r)
    = [(CallInsertOne (user_name user) (user_email user) oid comment date, true)].
Proof.
  intros Hh Hf Hid r id. subst r.
  rewrite (addComment_run _ _ _ _ _ h w Hh Hf Hid). simpl.
  split; [reflexivity|]. split; [reflexivity|]. split; [reflexivity|].
  unfold new_calls. simpl. apply new_calls_app.
Qed.

Lemma after_add_handle movieId user comment date oid h w :
  dao_comments w = Some h -> faults w = [] ->
  Bson.ObjectId movieId = Ok oid ->
  let w1 := snd (CommentsDAO.addComment movieId user comment date w) in
  dao_comments w1 = Some h /\ next_fault w1 = None /\
  comments_store w1
    = (comments_store w
         ++ [mkComment (generate_id (comments_store w)) (user_name user)
               (user_email user) oid comment date])%list.
Proof.
  intros Hh Hf Hid w1. subst w1.
  assert (next_fault w = None) as Hnf by (unfold next_fault; rewrite Hf; reflexivity).
  rewrite (addComment_run _ _ _ _ _ h w Hh Hnf Hid). simpl.
  split; [exact Hh|]. split; [|reflexivity].
  unfold next_fault. simpl. rewrite Hf. reflexivity.
Qed.

(** X6: posting and then editing or deleting.  After [addComment], when the
    generated [_id] is new in the store and [commentId] is its string form,
    [updateComment] under the poster's email rewrites the text of the new
    comment, and [deleteComment] under the poster's email brings the store
    back to what it was before the post. *)
Theorem addComment_then_owner_edits movieId user comment date oid commentId text' date' h w :
  dao_comments w = Some h -> faults w = [] ->
  Bson.ObjectId movieId = Ok oid ->
  Bson.ObjectId commentId = Ok (generate_id (comments_store w)) ->
  (forall c, c ∈ comments_store w -> c_id c <> generate_id (comments_store w)) ->
  let w1 := snd (CommentsDAO.addComment movieId user comment date w) in
  comments_store (snd (CommentsDAO.updateComment commentId (user_email user) text' date' w1))
    = (comments_store w
         ++ [mkComment (generate_id (comments_store w)) (user_name user)
               (user_email user) oid text' date'])%list /\
  comments_store (snd (CommentsDAO.deleteComment commentId (user_email user) w1))
    = comments_store w /\
  fst (CommentsDAO.deleteComment commentId (user_email user) w1)
    = Ok (Response (mkDeleteResult 1)).
Proof.
  intros Hh Hf Hmid Hcid Hfresh w1.
  destruct (after_add_handle movieId user comment date oid h w Hh Hf Hmid)
    as (Hh1 & Hnf1 & Hst1).
  fold w1 in Hh1, Hnf1, Hst1.
  set (c := mkComment (generate_id (comments_store w)) (user_name user)
              (user_email user) oid comment date) in *.
  assert (forall c', c' ∈ comments_store w ->
            Driver.filter_matches (mkCommentFilter (c_id c) (email c)) c' = false) as Hpre.
  { intros c' Hc'. apply filter_matches_other_id. apply Hfresh, Hc'. }
  rewrite (updateComment_run commentId (user_email user) text' date' _ h w1 Hh1 Hnf1 Hcid).
  rewrite (deleteComment_run commentId (user_email user) _ h w1 Hh1 Hnf1 Hcid).
  simpl. rewrite Hst1.
  rewrite (update_first_at _ _ (comments_store w) c []) by
    (first [exact Hpre | apply (filter_matches_owner c)]).
  rewrite (delete_first_at _ (comments_store w) c []) by
    (first [exact Hpre | apply (filter_matches_owner c)]).
  simpl. rewrite app_nil_r. repeat split.
Qed.

(** X7: no function of the comment DAO throws, and neither [injectDB] does:
    whatever the arguments and the state, the caller gets a value (a driver
    response or the error wrapper). *)
Theorem CommentsDAO_never_throws w :
  (forall m u c d, exists r, fst (CommentsDAO.addComment m u c d w) = Ok r) /\
  (forall i e t d, exists r, fst (CommentsDAO.updateComment i e t d w) = Ok r) /\
  (forall i e, exists r, fst (CommentsDAO.deleteComment i e w) = Ok r) /\
  (exists r, fst (CommentsDAO.mostActiveCommenters w) = Ok r) /\
  (forall conn, fst (CommentsDAO.injectDB conn w) = Ok tt) /\
  (forall conn, fst (MoviesDAO.injectDB conn w) = Ok tt).
Proof.
  assert (forall A (body : M A) what (k : JsError -> A) w0,
            exists r, fst (try_catch body
                             (fun e => do! console_error (unableTo what e) in ret (k e)) w0)
                      = Ok r) as Hcaught.
  { intros A body what k w0. unfold try_catch.
    destruct (body w0) as [[a|e] w1]; eexists; reflexivity. }
  split; [intros; apply (Hcaught _ _ "post comment" ErrorWrapper)|].
  split; [intros; apply (Hcaught _ _ "update comment" ErrorWrapper)|].
  split; [intros; apply (Hcaught _ _ "delete comment" ErrorWrapper)|].
  split; [apply (Hcaught _ _ "retrieve most active commenters" ErrorWrapper)|].
  split; intros conn.
  - unfold CommentsDAO.injectDB, bind, gets, try_catch.
    destruct (dao_comments w); [reflexivity|].
    match goal with |- context [match ?b with _ => _ end] => destruct b as [[[]|e] w1] end;
      reflexivity.
  - unfold MoviesDAO.injectDB, bind at 1. unfold gets, try_catch.
    destruct (dao_movies w); [reflexivity|].
    match goal with |- context [match ?b with _ => _ end] => destruct b as [[[]|e] w1] end;
      reflexivity.
Qed.
End comment_runs.

(** ** Comments: failures, and the top list *)

Section comment_failures.
Context `{QueryEngine}.


(** X9: before [injectDB], the comment operations answer with the error
    wrapper around a [TypeError] and issue no driver call. *)
Theorem comment_ops_before_injectDB movieId commentId user comment userEmail text date mid w :
  dao_comments w = None -> Bson.ObjectId movieId = Ok mid ->
  CommentsDAO.addComment movieId user comment date w
    = (Ok (ErrorWrapper (TypeError_undefined "insertOne")),
       log_console (unableTo "post comment" (TypeError_undefined "insertOne")) w) /\
  CommentsDAO.updateComment commentId userEmail text date w
    = (Ok (ErrorWrapper (TypeError_undefined "updateOne")),
       log_console (unableTo "update comment" (TypeError_undefined "updateOne")) w) /\
  CommentsDAO.deleteComment commentId userEmail w
    = (Ok (ErrorWrapper (TypeError_undefined "deleteOne")),
       log_console (unableTo "delete comment" (TypeError_undefined "deleteOne")) w) /\
  CommentsDAO.mostActiveCommenters w
    = (Ok (ErrorWrapper (TypeError_undefined "readConcern")),
       log_console (unableTo "retrieve most active commenters"
                      (TypeError_undefined "readConcern")) w).
Proof.
  intros Hh Hmid.
  unfold CommentsDAO.addComment, CommentsDAO.updateComment, CommentsDAO.deleteComment,
    CommentsDAO.mostActiveCommenters, try_catch, bind, deref, lift.
  rewrite Hh, Hmid. repeat split.
Qed.
End comment_failures.

Section most_active_top.

#[local] Existing Instance count_desc_total.
#[local] Existing Instance count_desc_trans.

Lemma group_count_complete (keys : list string) (k : string) :
  k ∈ keys ->
  mkCommenterCount k (length (filter (fun x => x = k) keys)) ∈ Driver.group_count keys.
Proof.
  intros Hk. unfold Driver.group_count.
  apply list_elem_of_fmap. exists k. split; [reflexivity|].
  apply elem_of_remove_dups, Hk.
Qed.

(** X10: the list of [mostActiveCommenters] is a top list.  A commenter who
    is left out has no more comments than any commenter in the list, and
    nobody is left out unless the list is full (20 entries). *)
Theorem mostActiveCommenters_is_top (w : World) (rows : list CommenterCount) (c : Comment) :
  fst (CommentsDAO.mostActiveCommenters w) = Ok (Response rows) ->
  c ∈ comments_store w ->
  email c ∉ (group_id <$> rows) ->
  length rows = 20%nat /\
  forall r, r ∈ rows -> (comments_of (email c) (comments_store w) <= count r)%nat.
Proof.
  intros Hrun Hc Hout.
  destruct (mostActiveCommenters_run w) as (_ & [[e He]|Hrows] & _).
  { rewrite He in Hrun. discriminate Hrun. }
  rewrite Hrows in Hrun. injection Hrun as <-.
  unfold top_commenters in *.
  set (sorted := merge_sort Driver.count_desc (Driver.group_count (email <$> comments_store w))) in *.
  set (g := mkCommenterCount (email c) (comments_of (email c) (comments_store w))).
  assert (g ∈ sorted) as Hg.
  { unfold sorted. rewrite merge_sort_Permutation. unfold g, comments_of.
    rewrite <- count_emails. apply group_count_complete.
    apply list_elem_of_fmap. exists c. split; [reflexivity | exact Hc]. }
  assert (StronglySorted Driver.count_desc sorted) as Hs
    by (apply StronglySorted_merge_sort; apply _).
  rewrite <- (take_drop 20 sorted) in Hg, Hs.
  apply elem_of_app in Hg as [Hg|Hg].
  { exfalso. apply Hout. apply list_elem_of_fmap. exists g. split; [reflexivity | exact Hg]. }
  split.
  - rewrite length_take. apply Nat.min_l.
    destruct (decide (20 <= length sorted)%nat) as [Hle|Hgt]; [exact Hle|].
    rewrite drop_ge in Hg by lia. inversion Hg.
  - intros r Hr.
    pose proof (StronglySorted_app_1_elem_of _ _ _ _ _ Hs Hr Hg) as Hrg.
    unfold Driver.count_desc in Hrg. exact Hrg.
Qed.
End most_active_top.

(** ** What the DAOs write *)

Section stores.
Context `{QueryEngine}.

Lemma keeps_at {A B} (f : World -> B) (m : M A) (w : World) :
  keeps f m -> f (snd (m w)) = f w.
Proof. intros Hk. apply Hk. Qed.

Lemma updateOne_keeps_movies h flt u : keeps movies_store (Driver.updateOne h flt u).
Proof.
  unfold Driver.updateOne. keeps_step.
  intros w. destruct (Driver.update_first flt u (comments_store w)); reflexivity.
Qed.

Lemma deleteOne_keeps_movies h flt : keeps movies_store (Driver.deleteOne h flt).
Proof.
  unfold Driver.deleteOne. keeps_step.
  intros w. destruct (Driver.delete_first flt (comments_store w)); reflexivity.
Qed.

Ltac unfold_dao :=
  unfold MoviesDAO.injectDB, MoviesDAO.getConfiguration, MoviesDAO.getMoviesByCountry,
    MoviesDAO.getMovies, MoviesDAO.facetedSearch, MoviesDAO.getMovieByID,
    MoviesDAO.getMovieByID_try, CommentsDAO.injectDB, CommentsDAO.addComment,
    CommentsDAO.updateComment, CommentsDAO.deleteComment,
    CommentsDAO.mostActiveCommenters, Driver.db, Driver.collection, Driver.command,
    Driver.find, Driver.find_projected, Driver.cursor_project, Driver.cursor_sort,
    Driver.cursor_skip, Driver.cursor_limit, Driver.toArray, Driver.countDocuments,
    Driver.aggregate, Driver.next, Driver.aggregate_comments, Driver.insertOne.

Ltac keeps_dao :=
  unfold_dao;
  repeat first
    [ keeps_step
    | match goal with
      | |- context [MoviesDAO.destructure ?qp] =>
          destruct (MoviesDAO.destructure qp) as [[? ?] ?]
      end
    | apply updateOne_keeps_movies
    | apply deleteOne_keeps_movies
    | apply toArray_comments_keeps; reflexivity
    | (intros ?; reflexivity) ].

Lemma run_call_keeps_movies_store c w : movies_store (run_call c w) = movies_store w.
Proof. destruct c; simpl; apply (keeps_at movies_store); keeps_dao. Qed.

Lemma run_call_reads_only c w :
  reads_only c = true -> comments_store (run_call c w) = comments_store w.
Proof.
  destruct c; simpl; intros Hro; try discriminate Hro;
    apply (keeps_at comments_store); keeps_dao.
Qed.

(** X11: the DAOs never write to the movies: after any sequence of DAO
    calls the stored movies are what they were.  The stored comments change
    only through [addComment], [updateComment] and [deleteComment]. *)
Theorem stores_written_by_comment_ops_only (cs : list DaoCall) (w : World) :
  movies_store (run_calls cs w) = movies_store w /\
  (forallb reads_only cs = true ->
   comments_store (run_calls cs w) = comments_store w).
Proof.
  revert w. induction cs as [|c cs IH]; intros w; [split; reflexivity|].
  change (run_calls (c :: cs) w) with (run_calls cs (run_call c w)).
  destruct (IH (run_call c w)) as [IHm IHc]. split.
  - rewrite IHm. apply run_call_keeps_movies_store.
  - simpl. intros Hall. apply andb_prop in Hall as [Hc Hcs].
    rewrite (IHc Hcs). apply run_call_reads_only, Hc.
Qed.
End stores.

(** ** The handles *)

Section handles_inv.
Context `{QueryEngine}.

Lemma handles_consistent_same w w' :
  handles w' = handles w -> handles_consistent w -> handles_consistent w'.
Proof.
  unfold handles, handles_consistent. intros Heq [Hm Hc].
  injection Heq as Hmv Hmf Hcm. rewrite Hmv, Hmf, Hcm. split; assumption.
Qed.

Lemma MoviesDAO_injectDB_consistent conn w :
  handles_consistent w -> handles_consistent (snd (MoviesDAO.injectDB conn w)).
Proof.
  intros [Hm Hc]. destruct w as [ms cs hm hf hc ns fs tr con]; simpl in *.
  destruct hm as [h|].
  - split; assumption.
  - unfold MoviesDAO.injectDB, handles_consistent, try_catch, bind, gets, modify,
      console_error, Driver.db, Driver.collection, Driver.driver_call, Driver.pop_fault,
      ret; simpl.
    fault_cases; (split; [intros h Hh; first [discriminate Hh | injection Hh as <-; split; reflexivity] | exact Hc]).
Qed.

Lemma CommentsDAO_injectDB_consistent conn w :
  handles_consistent w -> handles_consistent (snd (CommentsDAO.injectDB conn w)).
Proof.
  intros [Hm Hc]. destruct w as [ms cs hm hf hc ns fs tr con]; simpl in *.
  destruct hc as [h|].
  - split; assumption.
  - unfold CommentsDAO.injectDB, handles_consistent, try_catch, bind, gets, modify,
      console_error, Driver.db, Driver.collection, Driver.driver_call, Driver.pop_fault,
      ret; simpl.
    fault_cases; (split; [exact Hm | intros h Hh; first [discriminate Hh | injection Hh as <-; reflexivity]]).
Qed.

Lemma run_call_consistent c w : handles_consistent w -> handles_consistent (run_call c w).
Proof.
  intros Hw. destruct c; simpl;
    first [ apply MoviesDAO_injectDB_consistent, Hw
          | apply CommentsDAO_injectDB_consistent, Hw
          | refine (handles_consistent_same w _ _ Hw) ].
  - apply getConfiguration_keeps_handles.
  - apply getMoviesByCountry_keeps_handles.
  - apply getMovies_keeps_handles.
  - apply facetedSearch_keeps_handles.
  - apply getMovieByID_keeps_handles.
  - apply addComment_keeps_handles.
  - apply updateComment_keeps_handles.
  - apply deleteComment_keeps_handles.
  - apply mostActiveCommenters_keeps_handles.
Qed.

(** X12: the handles stay consistent.  Starting with no handle set (or with
    consistent ones), after any sequence of DAO calls a set [#movies] is a
    handle of the collection "movies" and [#mflix] is set to its database,
    and a set [comments] is a handle of the collection "comments"; so
    [getConfiguration] never finds [#mflix] missing once [#movies] is set. *)
Theorem handles_stay_consistent (cs : list DaoCall) (w : World) :
  handles_consistent w ->
  handles_consistent (run_calls cs w) /\
  (is_Some (dao_movies (run_calls cs w)) -> is_Some (dao_mflix (run_calls cs w))).
Proof.
  intros Hw.
  assert (handles_consistent (run_calls cs w)) as Hinv.
  { revert w Hw. induction cs as [|c cs IH]; intros w Hw; [exact Hw|].
    change (run_calls (c :: cs) w) with (run_calls cs (run_call c w)).
    apply IH, run_call_consistent, Hw. }
  split; [exact Hinv|]. intros [h Hh]. destruct Hinv as [Hm _].
  destruct (Hm h Hh) as [_ Hf]. rewrite Hf. eexists; reflexivity.
Qed.

Lemma MoviesDAO_injectDB_failed conn w :
  dao_movies w = None ->
  some_call_failed w (snd (MoviesDAO.injectDB conn w)) ->
  fst (MoviesDAO.injectDB conn w) = Ok tt /\
  dao_movies (snd (MoviesDAO.injectDB conn w)) = None /\
  length (console (snd (MoviesDAO.injectDB conn w))) = S (length (console w)) /\
  env_MFLIX_NS (snd (MoviesDAO.injectDB conn w)) = env_MFLIX_NS w.
Proof.
  destruct w as [ms cs hm hf hc ns fs tr con]; simpl. intros ->.
  unfold MoviesDAO.injectDB, try_catch, bind, gets, modify,
    console_error, Driver.db, Driver.collection, Driver.driver_call, Driver.pop_fault,
    ret; simpl.
  fault_cases; trace_norm; intros Hfail;
    try (no_failed_call Hfail);
    (split; [reflexivity|]); (split; [reflexivity|]);
    (split; [rewrite length_app; simpl; lia | reflexivity]).
Qed.

Lemma CommentsDAO_injectDB_failed conn w :
  dao_comments w = None ->
  some_call_failed w (snd (CommentsDAO.injectDB conn w)) ->
  fst (CommentsDAO.injectDB conn w) = Ok tt /\
  dao_comments (snd (CommentsDAO.injectDB conn w)) = None /\
  length (console (snd (CommentsDAO.injectDB conn w))) = S (length (console w)) /\
  env_MFLIX_NS (snd (CommentsDAO.injectDB conn w)) = env_MFLIX_NS w.
Proof.
  destruct w as [ms cs hm hf hc ns fs tr con]; simpl. intros ->.
  unfold CommentsDAO.injectDB, try_catch, bind, gets, modify,
    console_error, Driver.db, Driver.collection, Driver.driver_call, Driver.pop_fault,
    ret; simpl.
  fault_cases; trace_norm; intros Hfail;
    try (no_failed_call Hfail);
    (split; [reflexivity|]); (split; [reflexivity|]);
    (split; [rewrite length_app; simpl; lia | reflexivity]).
Qed.

(** X13: a failed [injectDB] can be repeated.  When a driver call of the
    first [injectDB] fails, nothing is thrown, one line is logged and the
    collection handle stays unset; a later [injectDB] that meets no failure
    then sets it, to the collection of the client it is given. *)
Theorem injectDB_failure_then_retry (conn conn' : MongoClient) (w : World) :
  (dao_movies w = None ->
   let w1 := snd (MoviesDAO.injectDB conn w) in
   some_call_failed w w1 ->
   fst (MoviesDAO.injectDB conn w) = Ok tt /\
   dao_movies w1 = None /\
   length (console w1) = S (length (console w)) /\
   (faults w1 = [] ->
    dao_movies (snd (MoviesDAO.injectDB conn' w1))
      = Some (mkCollection (mkDb conn' (env_MFLIX_NS w)) "movies"))) /\
  (dao_comments w = None ->
   let w1 := snd (CommentsDAO.injectDB conn w) in
   some_call_failed w w1 ->
   fst (CommentsDAO.injectDB conn w) = Ok tt /\
   dao_comments w1 = None /\
   length (console w1) = S (length (console w)) /\
   (faults w1 = [] ->
    dao_comments (snd (CommentsDAO.injectDB conn' w1))
      = Some (mkCollection (mkDb conn' (env_MFLIX_NS w)) "comments"))).
Proof.
  split; intros Hnone w1 Hfail.
  - destruct (MoviesDAO_injectDB_failed conn w Hnone Hfail) as (Hr & Hh & Hc & Hns).
    fold w1 in Hh, Hc, Hns.
    split; [exact Hr|]. split; [exact Hh|]. split; [exact Hc|]. intros Hf.
    rewrite <- Hns. apply (MoviesDAO_injectDB_first conn' w1 Hh Hf).
  - destruct (CommentsDAO_injectDB_failed conn w Hnone Hfail) as (Hr & Hh & Hc & Hns).
    fold w1 in Hh, Hc, Hns.
    split; [exact Hr|]. split; [exact Hh|]. split; [exact Hc|]. intros Hf.
    rewrite <- Hns. apply (CommentsDAO_injectDB_first conn' w1 Hh Hf).
Qed.
End handles_inv.

(** ** Movies: filters of the wrong type, searches by country, the guard *)

Section movies_more.
Context `{QueryEngine}.

(** X14: [getMovies] is not safe against a filter of the wrong type.  With
    no [text] key, a [cast] value (or, with no [cast] key either, a [genre]
    value) that is neither an array nor a string makes [getMovies] throw a
    [TypeError]: the query is built outside the [try] blocks.  Nothing is
    logged and no driver call is made.  A [text] value of any type is
    accepted. *)
Theorem getMovies_filter_type_error
    (filters : gmap string JsVal) (page moviesPerPage : option Z) (v : JsVal) (w : World) :
  filters !! "text" = None ->
  splittable v = false ->
  filters !! "cast" = Some v \/ (filters !! "cast" = None /\ filters !! "genre" = Some v) ->
  exists e, err_name e = "TypeError" /\
    MoviesDAO.getMovies (mkSearchArgs (Some filters) page moviesPerPage) w = (Throw e, w).
Proof.
  intros Ht Hv Hkey.
  assert (forall param, exists e, err_name e = "TypeError" /\
            MoviesDAO.array_or_split param v = Throw e) as Hthrows.
  { intros param.
    destruct v; try discriminate Hv; eexists; (split; [|reflexivity]); reflexivity. }
  unfold MoviesDAO.getMovies, bind, lift, MoviesDAO.chooseQueryParams; simpl.
  rewrite (has_prop_None _ _ Ht).
  destruct Hkey as [Hc | [Hc Hg]].
  - destruct (Hthrows "cast") as (e & He & Hsplit). exists e. split; [exact He|].
    rewrite (has_prop_Some "cast" filters) by (rewrite Hc; eexists; reflexivity).
    unfold MoviesDAO.castSearchQuery, get_prop. rewrite Hc. simpl. rewrite Hsplit. reflexivity.
  - destruct (Hthrows "genre") as (e & He & Hsplit). exists e. split; [exact He|].
    rewrite (has_prop_None _ _ Hc).
    rewrite (has_prop_Some "genre" filters) by (rewrite Hg; eexists; reflexivity).
    unfold MoviesDAO.genreSearchQuery, get_prop. rewrite Hg. simpl. rewrite Hsplit. reflexivity.
Qed.

(** X15: [getMoviesByCountry] guards [find] but not [toArray].  Before
    [injectDB] or when [find] fails the result is the empty list and one
    line is logged; a failure of [toArray] is thrown to the caller; otherwise
    the result is what the server yields for [{ countries: { $in } }]
    projected on the title. *)
Theorem getMoviesByCountry_cases (countries : list JsVal) (w : World) :
  let q := QIn "countries" countries in
  let p := [("title", PInclude)] in
  let r := MoviesDAO.getMoviesByCountry countries w in
  (dao_movies w = None ->
   r = (Ok [], log_console (findFailed (TypeError_undefined "find")) w)) /\
  (is_Some (dao_movies w) -> forall e rest,
     (faults w = Some e :: rest ->
      fst r = Ok [] /\
      console (snd r) = (console w ++ [findFailed e])%list) /\
     (faults w = None :: Some e :: rest ->
      fst r = Throw e /\ console (snd r) = console w)) /\
  (is_Some (dao_movies w) -> faults w = [] ->
   fst r = Ok (sort_project None (Some p) (List.filter (matches q) (movies_store w))) /\
   map fst (new_calls w (snd r)) = [CallFindProjected q p; CallToArray]).
Proof.
  intros q p r. subst r q p. destruct w as [ms cs hm hf hc ns fs tr con]; simpl.
  unfold MoviesDAO.getMoviesByCountry, try_catch, bind, deref, ret, console_error,
    modify, Driver.find_projected, Driver.toArray, Driver.run_find, Driver.driver_call,
    Driver.pop_fault, Driver.apply_limit, Driver.apply_skip; simpl.
  split; [intros ->; reflexivity|]. split.
  - intros [h ->] e rest. split; intros ->; simpl; split; reflexivity.
  - intros [h ->] ->. simpl. split; [reflexivity|].
    trace_norm. reflexivity.
Qed.

(** X16: the only error [facetedSearch] throws is that of its guard.  It
    throws exactly when there is no filter or the [cast] value is falsy
    (left out, [null], [false], [0], the empty string); once [cast] is
    truthy (an empty array is) it returns a value, whatever happens after. *)
Theorem facetedSearch_throws_only_at_guard (args : SearchArgs) (w : World) :
  let accepted :=
    match arg_filters args with
    | Some filters => truthy (get_prop filters "cast")
    | None => false
    end in
  (accepted = false -> MoviesDAO.facetedSearch args w = (Throw mustSpecifyCast, w)) /\
  (accepted = true -> exists v, fst (MoviesDAO.facetedSearch args w) = Ok v).
Proof.
  destruct args as [[filters|] pg mpp]; simpl.
  - unfold MoviesDAO.facetedSearch; simpl.
    destruct (truthy (get_prop filters "cast")); simpl.
    + split; [discriminate|]. intros _. unfold try_catch.
      match goal with |- context [match ?b with (_, _) => _ end] =>
        destruct b as [[v|e] w1] end; eexists; reflexivity.
    + split; [reflexivity | discriminate].
  - split; [reflexivity | discriminate].
Qed.
End movies_more.

(** ** Movies: bounds, configuration, searches before injection *)

Section movies_bounds.
Context `{QueryEngine}.

Lemma matching_at_most (q : Query) (ms : list Movie) :
  (length (List.filter (matches q) ms) <= length ms)%nat.
Proof.
  induction ms as [|m ms IH]; simpl; [lia|].
  destruct (matches q m); simpl; lia.
Qed.

Lemma apply_limit_length {A} (n : Z) (l : list A) :
  n <> 0 -> (length (Driver.apply_limit n l) <= Z.abs_nat n)%nat.
Proof.
  intros Hn. unfold Driver.apply_limit.
  destruct (n =? 0) eqn:Hz; [apply Z.eqb_eq in Hz; contradiction|].
  rewrite length_take. lia.
Qed.

(** X17: bounds on every result of [getMovies], failed runs included:
    [totalNumMovies] lies between 0 and the number of stored movies and is
    0 unless the page is 0, and [moviesList] has at most [moviesPerPage]
    entries (in absolute value) unless [moviesPerPage] is 0, which the
    server takes as no limit. *)
Theorem getMovies_result_bounds (args : SearchArgs) (w : World) (r : GetMoviesResult) :
  fst (MoviesDAO.getMovies args w) = Ok r ->
  let page := default 0 (arg_page args) in
  let moviesPerPage := default 20 (arg_moviesPerPage args) in
  0 <= totalNumMovies r <= Z.of_nat (length (movies_store w)) /\
  (totalNumMovies r <> 0 -> page = 0) /\
  (moviesPerPage <> 0 -> (length (moviesList r) <= Z.abs_nat moviesPerPage)%nat).
Proof.
  destruct args as [fl pg mpp]. destruct w as [ms cs hm hf hc ns fs tr con].
  unfold MoviesDAO.getMovies; simpl. unfold bind at 1, lift.
  destruct (MoviesDAO.chooseQueryParams fl) as [qp|e]; simpl; [|discriminate].
  unfold try_catch, bind, deref, ret, console_error, modify, Driver.find,
    Driver.cursor_project, Driver.cursor_sort, Driver.cursor_skip, Driver.cursor_limit,
    Driver.toArray, Driver.countDocuments, Driver.run_find, Driver.driver_call,
    Driver.pop_fault; simpl.
  pose proof (matching_at_most (default QEmpty (query qp)) ms) as Hle.
  destruct hm as [h|]; simpl.
  2:{ intros Hr. injection Hr as <-. simpl. repeat split; intros; simpl; lia. }
  fault_cases;
    repeat match goal with
    | |- context [if ?b then _ else _] => destruct b eqn:?; simpl
    end; fault_cases; intros Hr; try discriminate Hr;
    injection Hr as <-; simpl;
    repeat match goal with
    | Hp : (_ =? 0) = true |- _ => apply Z.eqb_eq in Hp
    end;
    (split; [lia|]); (split; [intros Hnz; first [assumption | contradiction]|]);
    intros Hmpp; first [apply apply_limit_length, Hmpp | simpl; lia].
Qed.

(** X18: [getConfiguration] has no error handling.  Before [injectDB] it
    throws a [TypeError]; a failure of the [connectionStatus] command is
    thrown as it is; nothing is logged.  When the command answers with a
    role, the result holds that role and the [poolSize] and [wtimeout]
    options of the client behind [#movies]. *)
Theorem getConfiguration_cases (w : World) :
  let r := MoviesDAO.getConfiguration w in
  (dao_mflix w = None -> r = (Throw (TypeError_undefined "command"), w)) /\
  (forall e, is_Some (dao_mflix w) -> next_fault w = Some e ->
     fst r = Throw e /\ console (snd r) = console w) /\
  (forall h info roles role,
     is_Some (dao_mflix w) -> dao_movies w = Some h -> next_fault w = None ->
     member connection_status "authInfo" = Ok info ->
     member info "authenticatedUserRoles" = Ok roles ->
     first_element roles = Ok role ->
     let options := VObj (client_options (db_client (coll_db h))) in
     exists size timeout,
       member options "poolSize" = Ok size /\ member options "wtimeout" = Ok timeout /\
       fst r = Ok (mkConfigurationResult size timeout role) /\
       new_calls w (snd r) = [(CallCommand "connectionStatus", true)]).
Proof.
  intros r. subst r. destruct w as [ms cs hm hf hc ns fs tr con]; simpl.
  unfold MoviesDAO.getConfiguration, bind, deref, lift, ret, Driver.command,
    Driver.driver_call, Driver.pop_fault, next_fault; simpl.
  split; [intros ->; reflexivity|]. split.
  - intros e [d ->] Hf. destruct fs as [|[e'|] rest]; try discriminate Hf.
    injection Hf as ->. split; reflexivity.
  - intros h info roles role [d ->] -> Hf Hinfo Hroles Hrole.
    destruct fs as [|[e'|] rest]; try discriminate Hf; simpl;
      rewrite Hinfo, Hroles, Hrole; simpl;
      (eexists; eexists; split; [reflexivity|]; split; [reflexivity|];
       split; [reflexivity|]; trace_norm; reflexivity).
Qed.

(** X19: before [injectDB], the movie searches answer as on a failure and
    make no driver call: [getMovies] returns the empty result set and
    [getMoviesByCountry] the empty list, each logging one line, and
    [facetedSearch] (with a [cast] filter) returns its fixed error object;
    [getMovieByID] with a well-formed identifier logs one line and throws a
    [TypeError].  In each case the world after the call is the world
    before it, but for the logged line. *)
Theorem movie_searches_before_injectDB (args : SearchArgs) (qp : QueryParams)
    (countries : list JsVal) (id : string) (w : World) :
  dao_movies w = None ->
  (MoviesDAO.chooseQueryParams (arg_filters args) = Ok qp ->
   MoviesDAO.getMovies args w
     = (Ok (mkGetMoviesResult [] 0),
        log_console (findFailed (TypeError_undefined "find")) w)) /\
  MoviesDAO.getMoviesByCountry countries w
    = (Ok [], log_console (findFailed (TypeError_undefined "find")) w) /\
  (forall filters, arg_filters args = Some filters ->
     truthy (get_prop filters "cast") = true ->
     MoviesDAO.facetedSearch args w
       = (Ok (VObj [("error", VStr "Results too large, be more restrictive in filter")]),
          w)) /\
  (Bson.isValid id = true ->
   MoviesDAO.getMovieByID id w
     = (Throw (TypeError_undefined "aggregate"),
        log_console (wentWrong (TypeError_undefined "aggregate")) w)).
Proof.
  intros Hh. split; [|split; [|split]].
  - intros Hqp. unfold MoviesDAO.getMovies, bind at 1. unfold lift. rewrite Hqp. simpl.
    unfold bind, try_catch, deref. rewrite Hh. reflexivity.
  - unfold MoviesDAO.getMoviesByCountry, bind, try_catch, deref. rewrite Hh. reflexivity.
  - intros filters Hf Hcast. destruct args as [fl pg mpp]; simpl in Hf; subst fl.
    unfold MoviesDAO.facetedSearch; simpl. rewrite Hcast; simpl.
    unfold try_catch, bind, deref. rewrite Hh. reflexivity.
  - intros Hv. exact (getMovieByID_no_handle id w Hv Hh).
Qed.
End movies_bounds.

(** ** Search queries from strings *)

Section splitting.

Lemma split_aux_comma_space cur rest :
  split_comma_space_aux cur (String "," (String " " rest))
    = string_of_list_ascii (rev cur) :: split_comma_space_aux [] rest.
Proof. reflexivity. Qed.

Lemma split_aux_other cur c rest :
  (c = ","%char -> forall rest', rest <> String " " rest') ->
  split_comma_space_aux cur (String c rest) = split_comma_space_aux (c :: cur) rest.
Proof.
  intros Hno.
  destruct (Ascii.eqb_spec c ","%char) as [->|Hc].
  - destruct rest as [|d rest']; [reflexivity|].
    destruct (Ascii.eqb_spec d " "%char) as [->|Hd].
    + exfalso. apply (Hno eq_refl rest'). reflexivity.
    + destruct d as [[] [] [] [] [] [] [] []]; try reflexivity. contradiction.
  - destruct c as [[] [] [] [] [] [] [] []]; try reflexivity. contradiction.
Qed.

Lemma split_aux_nonempty cur s : split_comma_space_aux cur s <> [].
Proof.
  revert cur. induction s as [|c s IH]; intros cur; [discriminate|].
  destruct (Ascii.eqb_spec c ","%char) as [->|Hc].
  - destruct s as [|d s'].
    + discriminate.
    + destruct (Ascii.eqb_spec d " "%char) as [->|Hd]; [discriminate|].
      rewrite split_aux_other; [apply IH|]. intros _ rest' Heq. congruence.
  - rewrite split_aux_other; [apply IH|]. intros Heq. contradiction.
Qed.

Lemma join_cons x l : l <> [] -> join_comma_space (x :: l) = x ++ ", " ++ join_comma_space l.
Proof. destruct l; [contradiction | reflexivity]. Qed.

Lemma string_of_rev_snoc cur c s :
  string_of_list_ascii (rev (c :: cur)) ++ s = string_of_list_ascii (rev cur) ++ String c s.
Proof.
  simpl. induction (rev cur) as [|a l IH]; [reflexivity|].
  change (String a (string_of_list_ascii (l ++ [c]) ++ s)
          = String a (string_of_list_ascii l ++ String c s)).
  f_equal. exact IH.
Qed.

Lemma append_empty_r (x : string) : x ++ "" = x.
Proof.
  induction x as [|a x IH]; [reflexivity|].
  change (String a (x ++ "") = String a x). f_equal. exact IH.
Qed.

Lemma join_split_aux s : forall cur,
  join_comma_space (split_comma_space_aux cur s) = string_of_list_ascii (rev cur) ++ s.
Proof.
  assert (forall s, (forall cur, join_comma_space (split_comma_space_aux cur s)
                                 = string_of_list_ascii (rev cur) ++ s) /\
                    (forall c cur, join_comma_space (split_comma_space_aux cur (String c s))
                                 = string_of_list_ascii (rev cur) ++ String c s)) as Hboth.
  { clear s. induction s as [|d s [IH1 IH2]].
    - split.
      + intros cur. simpl. symmetry. apply append_empty_r.
      + intros c cur. rewrite split_aux_other by (intros _ rest'; discriminate).
        rewrite <- string_of_rev_snoc.
        change (string_of_list_ascii (rev (c :: cur))
                = string_of_list_ascii (rev (c :: cur)) ++ "").
        symmetry. apply append_empty_r.
    - split; [exact (IH2 d)|].
      intros c cur.
      destruct (Ascii.eqb_spec c ","%char) as [->|Hc].
      + destruct (Ascii.eqb_spec d " "%char) as [->|Hd].
        * rewrite split_aux_comma_space.
          rewrite join_cons by apply split_aux_nonempty.
          rewrite IH1. reflexivity.
        * rewrite split_aux_other by (intros _ rest' Heq; congruence).
          rewrite (IH2 d). apply string_of_rev_snoc.
      + rewrite split_aux_other by (intros Heq; contradiction).
        rewrite (IH2 d). apply string_of_rev_snoc. }
  apply Hboth.
Qed.

(** X20: a string filter is read as a list of names separated by ", ".
    For every string, [castSearchQuery] (and [genreSearchQuery], on the
    field [genres]) gives an [$in] query over pieces that are never none and
    that, joined by ", ", give the string back; the empty projection and the
    default sort go with it; and the array of those pieces gives the very
    same query. *)
Theorem search_query_of_string (s : string) :
  exists pieces,
    pieces <> [] /\ join_comma_space pieces = s /\
    MoviesDAO.castSearchQuery (VStr s)
      = Ok (mkQueryParams (Some (QIn "cast" (VStr <$> pieces))) (Some [])
              (Some [("tomatoes.viewer.numReviews", SDir (-1))])) /\
    MoviesDAO.genreSearchQuery (VStr s)
      = Ok (mkQueryParams (Some (QIn "genres" (VStr <$> pieces))) (Some [])
              (Some [("tomatoes.viewer.numReviews", SDir (-1))])) /\
    MoviesDAO.castSearchQuery (VArr (VStr <$> pieces)) = MoviesDAO.castSearchQuery (VStr s) /\
    MoviesDAO.genreSearchQuery (VArr (VStr <$> pieces)) = MoviesDAO.genreSearchQuery (VStr s).
Proof.
  exists (split_comma_space s). split; [apply split_aux_nonempty|].
  split; [apply (join_split_aux s [])|]. repeat split.
Qed.
End splitting.

(** ** Movies: the cursor options *)

Section cursor_options.
Context `{QueryEngine}.

(** X21: [skip] and [limit] are called between the two [try] blocks of
    [getMovies].  When one of them fails after a successful [find], the
    error is thrown to the caller and nothing is logged, where a failure of
    [sort], the call before [skip], gives the empty result set and a logged
    line. *)
Theorem getMovies_cursor_options_unguarded
    (args : SearchArgs) (qp : QueryParams) (e : JsError) (rest : list (option JsError))
    (w : World) :
  MoviesDAO.chooseQueryParams (arg_filters args) = Ok qp ->
  is_Some (dao_movies w) ->
  (faults w = None :: None :: None :: Some e :: rest \/
   faults w = None :: None :: None :: None :: Some e :: rest ->
   fst (MoviesDAO.getMovies args w) = Throw e /\
   console (snd (MoviesDAO.getMovies args w)) = console w) /\
  (faults w = None :: None :: Some e :: rest ->
   fst (MoviesDAO.getMovies args w) = Ok MoviesDAO.emptyResult /\
   console (snd (MoviesDAO.getMovies args w)) = (console w ++ [findFailed e])%list).
Proof.
  intros Hqp [h Hh]. destruct w as [ms cs hm hf hc ns fs tr con]. simpl in *. subst hm.
  unfold MoviesDAO.getMovies, bind at 1 3 5 7. unfold lift. rewrite Hqp. simpl.
  unfold try_catch, bind, deref, ret, console_error, modify, Driver.find,
    Driver.cursor_project, Driver.cursor_sort, Driver.cursor_skip, Driver.cursor_limit,
    Driver.driver_call, Driver.pop_fault; simpl.
  split.
  - intros [-> | ->]; split; reflexivity.
  - intros ->. split; reflexivity.
Qed.
End cursor_options.

(** ** More runs on the example database *)

Section more_example_runs.
Import Example.

(** Goes through the comments of a concrete list. *)
Ltac each_stored :=
  let c := fresh "c" in
  let Hin := fresh "Hin" in
  intros c Hin;
  repeat (apply elem_of_cons in Hin as [->|Hin]; [discriminate|]);
  apply elem_of_nil in Hin; destruct Hin.

(** Bob edits his comment. *)
Lemma updateComment_by_owner_witness :
  comments_store (snd (CommentsDAO.updateComment (id_of 2) "bob@x.com" "better" 200 world))
    = [ada; mkComment (oid 2) "Bob" "bob@x.com" (oid 7) "better" 200; ada2; cy].
Proof.
  apply (proj1 (updateComment_by_owner (id_of 2) "better" 200 h_comments world
                  [ada] bob [ada2; cy] eq_refl eq_refl eq_refl eq_refl
                  ltac:(each_stored))).
Defined.

(** Bob deletes his comment. *)
Lemma deleteComment_by_owner_witness :
  comments_store (snd (CommentsDAO.deleteComment (id_of 2) "bob@x.com" world))
    = [ada; ada2; cy].
Proof.
  apply (proj1 (deleteComment_by_owner (id_of 2) h_comments world
                  [ada] bob [ada2; cy] eq_refl eq_refl eq_refl eq_refl
                  ltac:(each_stored))).
Defined.

(** Bob sends the same edit twice. *)
Lemma updateComment_twice_witness :
  fst (CommentsDAO.updateComment (id_of 2) "bob@x.com" "better" 200
         (snd (CommentsDAO.updateComment (id_of 2) "bob@x.com" "better" 200 world)))
    = Ok (Response (mkUpdateResult 1 0)).
Proof.
  apply (proj1 (updateComment_twice (id_of 2) "better" 200 h_comments world
                  [ada] bob [ada2; cy] eq_refl eq_refl eq_refl eq_refl
                  ltac:(each_stored))).
Defined.

(** An identifier that is not one. *)
Lemma comment_ops_malformed_id_witness :
  Bson.isValid "42" = false /\
  fst (CommentsDAO.addComment "42" (mkUser "Ada" "ada@x.com") "great film" 104 world)
    = Ok (ErrorWrapper Bson.InvalidId) /\
  fst (CommentsDAO.deleteComment "42" "ada@x.com" world) = Ok (ErrorWrapper Bson.InvalidId).
Proof.
  destruct (comment_ops_malformed_id "42" (mkUser "Ada" "ada@x.com") "great film"
              "ada@x.com" "x" 104 world eq_refl) as (Hadd & Hrest).
  destruct (Hrest (ex_intro _ h_comments eq_refl)) as (_ & Hdel).
  split; [reflexivity|]. split; [rewrite Hadd | rewrite Hdel]; reflexivity.
Defined.

(** Ada posts a fifth comment. *)
Lemma addComment_appends_witness :
  comments_store (snd (CommentsDAO.addComment (id_of 7) (mkUser "Ada" "ada@x.com")
                         "great film" 104 world))
    = [ada; bob; ada2; cy; mkComment (oid 9) "Ada" "ada@x.com" (oid 7) "great film" 104].
Proof.
  exact (proj1 (proj2 (addComment_appends (id_of 7) (mkUser "Ada" "ada@x.com")
                         "great film" 104 (oid 7) h_comments world
                         eq_refl eq_refl eq_refl))).
Defined.

(** Ada posts, then revises; or posts, then deletes. *)
Lemma addComment_then_owner_edits_witness :
  comments_store (snd (CommentsDAO.updateComment (id_of 9) "ada@x.com" "revised" 105 posted))
    = [ada; bob; ada2; cy; mkComment (oid 9) "Ada" "ada@x.com" (oid 7) "revised" 105] /\
  comments_store (snd (CommentsDAO.deleteComment (id_of 9) "ada@x.com" posted))
    = [ada; bob; ada2; cy].
Proof.
  assert (forall c, c ∈ comments_store world -> c_id c <> generate_id (comments_store world))
    as Hfresh.
  { each_stored. }
  assert (Bson.ObjectId (id_of 9) = Ok (generate_id (comments_store world))) as Hid
    by reflexivity.
  destruct (addComment_then_owner_edits (id_of 7) (mkUser "Ada" "ada@x.com") "great film"
              104 (oid 7) (id_of 9) "revised" 105 h_comments world
              eq_refl eq_refl eq_refl Hid Hfresh) as (Hup & Hdel & _).
  split; [exact Hup | exact Hdel].
Defined.


(** Nothing injected yet. *)
Lemma comment_ops_before_injectDB_witness :
  fst (CommentsDAO.mostActiveCommenters fresh)
    = Ok (ErrorWrapper (TypeError_undefined "readConcern")).
Proof.
  destruct (comment_ops_before_injectDB (id_of 7) (id_of 1) (mkUser "Ada" "ada@x.com")
              "great film" "ada@x.com" "x" 104 (oid 7) fresh eq_refl eq_refl)
    as (_ & _ & _ & Htop).
  rewrite Htop. reflexivity.
Defined.
(** A number where the cast is expected. *)
Lemma getMovies_filter_type_error_witness :
  splittable (VNum 7) = false /\
  exists e, err_name e = "TypeError" /\
    MoviesDAO.getMovies (mkSearchArgs (Some {[ "cast" := VNum 7 ]}) None None) world
      = (Throw e, world).
Proof.
  split; [reflexivity|].
  apply (getMovies_filter_type_error {[ "cast" := VNum 7 ]} None None (VNum 7) world);
    [reflexivity | reflexivity | left; reflexivity].
Defined.

(** An empty string is no cast; an empty array is one. *)
Lemma facetedSearch_throws_only_at_guard_witness :
  MoviesDAO.facetedSearch (mkSearchArgs (Some {[ "cast" := VStr "" ]}) None None) world
    = (Throw mustSpecifyCast, world) /\
  exists v, fst (MoviesDAO.facetedSearch (mkSearchArgs (Some {[ "cast" := VArr [] ]}) None None)
                   (failing_after 0)) = Ok v.
Proof.
  split.
  - apply (proj1 (facetedSearch_throws_only_at_guard
                    (mkSearchArgs (Some {[ "cast" := VStr "" ]}) None None) world)).
    reflexivity.
  - apply (proj2 (facetedSearch_throws_only_at_guard
                    (mkSearchArgs (Some {[ "cast" := VArr [] ]}) None None) (failing_after 0))).
    reflexivity.
Defined.

(** Twenty-one commenters: the one left out has a single comment, like the
    last of the list. *)
Lemma mostActiveCommenters_is_top_witness :
  exists rows,
    fst (CommentsDAO.mostActiveCommenters crowd) = Ok (Response rows) /\
    (commenter 16 ∈ comments_store crowd) /\
    (email (commenter 16) ∉ (group_id <$> rows)) /\
    length rows = 20%nat.
Proof.
  eexists.
  assert (fst (CommentsDAO.mostActiveCommenters crowd) = Ok (Response _)) as Hrun
    by (vm_compute; reflexivity).
  assert (commenter 16 ∈ comments_store crowd) as Hin
    by (vm_compute; repeat first [apply list_elem_of_here | apply list_elem_of_further]).
  split; [exact Hrun|]. split; [exact Hin|].
  match type of Hrun with _ = Ok (Response ?rows) =>
    assert (email (commenter 16) ∉ (group_id <$> rows)) as Hout
  end.
  { vm_compute. intros Hbad.
    repeat (apply elem_of_cons in Hbad as [Hbad|Hbad]; [discriminate Hbad|]).
    apply elem_of_nil in Hbad. destruct Hbad. }
  split; [exact Hout|].
  exact (proj1 (mostActiveCommenters_is_top crowd _ (commenter 16) Hrun Hin Hout)).
Defined.

(** Searches and a failed edit leave both stores alone. *)
Lemma stores_written_by_comment_ops_only_witness :
  let cs := [GetMovies (mkSearchArgs (Some castFilter) None None); MostActiveCommenters;
             GetMovieByID (id_of 7); FacetedSearch (mkSearchArgs (Some castFilter) None None);
             GetMoviesByCountry [VStr "UK"]; GetConfiguration] in
  movies_store (run_calls (DeleteComment (id_of 1) "ada@x.com" :: cs) world)
    = [heat; alien; ronin] /\
  comments_store (run_calls cs world) = [ada; bob; ada2; cy].
Proof.
  intros cs. split.
  - exact (proj1 (stores_written_by_comment_ops_only
                    (DeleteComment (id_of 1) "ada@x.com" :: cs) world)).
  - exact (proj2 (stores_written_by_comment_ops_only cs world) eq_refl).
Defined.

(** From nothing injected, through a failed and a successful injection. *)
Lemma handles_stay_consistent_witness :
  let cs := [MoviesInjectDB client; CommentsInjectDB client; MoviesInjectDB other_client] in
  handles_consistent fresh /\
  handles_consistent (run_calls cs (set_faults [None; Some down] fresh)) /\
  dao_movies (run_calls cs (set_faults [None; Some down] fresh))
    = Some (mkCollection (mkDb other_client (Some "sample_mflix")) "movies").
Proof.
  intros cs.
  assert (handles_consistent fresh) as Hfresh by (split; intros h Hh; discriminate Hh).
  split; [exact Hfresh|]. split; [|vm_compute; reflexivity].
  apply (handles_stay_consistent cs (set_faults [None; Some down] fresh)).
  split; intros h Hh; discriminate Hh.
Defined.

(** The first injection meets a failure, the second does not. *)
Lemma injectDB_failure_then_retry_witness :
  let w := set_faults [Some down] fresh in
  some_call_failed w (snd (MoviesDAO.injectDB client w)) /\
  dao_movies (snd (MoviesDAO.injectDB client w)) = None /\
  dao_movies (snd (MoviesDAO.injectDB other_client (snd (MoviesDAO.injectDB client w))))
    = Some (mkCollection (mkDb other_client (Some "sample_mflix")) "movies").
Proof.
  intros w.
  assert (some_call_failed w (snd (MoviesDAO.injectDB client w))) as Hfail.
  { exists (CallDb client (Some "sample_mflix")). vm_compute. has_failed_call_at. }
  destruct (proj1 (injectDB_failure_then_retry client other_client w) eq_refl Hfail)
    as (_ & Hnone & _ & Hretry).
  split; [exact Hfail|]. split; [exact Hnone|]. apply Hretry. reflexivity.
Defined.

(** Movies of the UK; and a failing [find], a failing [toArray]. *)
Lemma getMoviesByCountry_cases_witness :
  fst (MoviesDAO.getMoviesByCountry [VStr "UK"] world) = Ok [VObj [("title", VStr "Alien")]] /\
  fst (MoviesDAO.getMoviesByCountry [VStr "UK"] (failing_after 0)) = Ok [] /\
  fst (MoviesDAO.getMoviesByCountry [VStr "UK"] (failing_after 1)) = Throw down.
Proof.
  split; [|split].
  - exact (proj1 (proj2 (proj2 (getMoviesByCountry_cases [VStr "UK"] world))
                    (ex_intro _ h_movies eq_refl) eq_refl)).
  - exact (proj1 (proj1 (proj1 (proj2 (getMoviesByCountry_cases [VStr "UK"] (failing_after 0)))
                           (ex_intro _ h_movies eq_refl) down []) eq_refl)).
  - exact (proj1 (proj2 (proj1 (proj2 (getMoviesByCountry_cases [VStr "UK"] (failing_after 1)))
                           (ex_intro _ h_movies eq_refl) down []) eq_refl)).
Defined.

(** One movie per page. *)
Lemma getMovies_result_bounds_witness :
  exists r,
    fst (MoviesDAO.getMovies (mkSearchArgs (Some castFilter) (Some 0) (Some 1)) world) = Ok r /\
    0 <= totalNumMovies r <= 3 /\ (length (moviesList r) <= 1)%nat.
Proof.
  eexists.
  assert (fst (MoviesDAO.getMovies (mkSearchArgs (Some castFilter) (Some 0) (Some 1)) world)
            = Ok _) as Hr by (vm_compute; reflexivity).
  split; [exact Hr|].
  destruct (getMovies_result_bounds _ world _ Hr) as (Htot & _ & Hlen).
  split; [exact Htot | apply Hlen; discriminate].
Defined.

(** The configuration of the running example; none before injection. *)
Lemma getConfiguration_cases_witness :
  MoviesDAO.getConfiguration fresh = (Throw (TypeError_undefined "command"), fresh) /\
  fst (MoviesDAO.getConfiguration (failing_after 0)) = Throw down /\
  exists size timeout,
    fst (MoviesDAO.getConfiguration world)
      = Ok (mkConfigurationResult size timeout
              (VObj [("role", VStr "readWrite"); ("db", VStr "sample_mflix")])).
Proof.
  split; [|split].
  - exact (proj1 (getConfiguration_cases fresh) eq_refl).
  - exact (proj1 (proj1 (proj2 (getConfiguration_cases (failing_after 0))) down
                    (ex_intro _ mflix eq_refl) eq_refl)).
  - destruct (proj2 (proj2 (@getConfiguration_cases engine world)) h_movies
                (VObj [("authenticatedUserRoles",
                        VArr [VObj [("role", VStr "readWrite"); ("db", VStr "sample_mflix")]])])
                (VArr [VObj [("role", VStr "readWrite"); ("db", VStr "sample_mflix")]])
                (VObj [("role", VStr "readWrite"); ("db", VStr "sample_mflix")])
                (ex_intro _ mflix eq_refl) eq_refl eq_refl eq_refl eq_refl eq_refl)
      as (size & timeout & _ & _ & Hr & _).
    exists size, timeout. exact Hr.
Defined.

(** Searching before injection. *)
Lemma movie_searches_before_injectDB_witness :
  fst (MoviesDAO.getMovies (mkSearchArgs (Some castFilter) None None) fresh)
    = Ok (mkGetMoviesResult [] 0) /\
  fst (MoviesDAO.facetedSearch (mkSearchArgs (Some castFilter) None None) fresh)
    = Ok (VObj [("error", VStr "Results too large, be more restrictive in filter")]) /\
  fst (MoviesDAO.getMovieByID (id_of 7) fresh) = Throw (TypeError_undefined "aggregate") /\
  calls (snd (MoviesDAO.getMovieByID (id_of 7) fresh)) = [].
Proof.
  assert (MoviesDAO.chooseQueryParams (Some castFilter)
            = Ok (mkQueryParams
                    (Some (QIn "cast" [VStr "Robert De Niro"; VStr "Jean Reno"]))
                    (Some []) (Some MoviesDAO.DEFAULT_SORT))) as Hqp
    by (vm_compute; reflexivity).
  destruct (movie_searches_before_injectDB (mkSearchArgs (Some castFilter) None None)
              (mkQueryParams
                 (Some (QIn "cast" [VStr "Robert De Niro"; VStr "Jean Reno"]))
                 (Some []) (Some MoviesDAO.DEFAULT_SORT))
              [] (id_of 7) fresh eq_refl) as (Hget & _ & Hfac & Hid).
  split; [rewrite (Hget Hqp); reflexivity|].
  split; [rewrite (Hfac castFilter eq_refl ltac:(vm_compute; reflexivity)); reflexivity|].
  rewrite (Hid eq_refl). split; reflexivity.
Defined.

(** [skip] fails. *)
Lemma getMovies_cursor_options_unguarded_witness :
  fst (MoviesDAO.getMovies (mkSearchArgs None None None) (failing_after 3)) = Throw down /\
  fst (MoviesDAO.getMovies (mkSearchArgs None None None) (failing_after 2))
    = Ok MoviesDAO.emptyResult.
Proof.
  split.
  - apply (proj1 (getMovies_cursor_options_unguarded (mkSearchArgs None None None)
                    (mkQueryParams None None None) down [] (failing_after 3)
                    eq_refl (ex_intro _ h_movies eq_refl))).
    left; reflexivity.
  - apply (proj2 (getMovies_cursor_options_unguarded (mkSearchArgs None None None)
                    (mkQueryParams None None None) down [] (failing_after 2)
                    eq_refl (ex_intro _ h_movies eq_refl))).
    reflexivity.
Defined.
End more_example_runs.
